(** * EduVision: the classroom engagement tracker

    A shallow embedding of [src/pages/Index.tsx] (the page component [Index]
    with its handler [handleStudentsDetected] and its render guards) and of
    [components/EmotionDetector.tsx] (the periodic [detectStudents] callback),
    followed by the properties of the tracking and aggregation engine.

    Conventions of the embedding.
    - A JavaScript number that holds a measure (a random draw, a coordinate,
      a confidence) is an exact rational of [Q]: the arithmetic of the source
      is read without the rounding of binary64.  Counters and millisecond
      timestamps are integers.
    - [Math.random()] and [Date.now()] are the two effects of the code.  The
      host supplies the value of the k-th call of each, and the code threads
      the number of calls made so far (the monad [Eff]).
    - React state ([useState]) is a record; a functional update
      [setEmotionHistory(prev => [...prev, e])] is applied in call order.
    - Drawing on the overlay canvas and the write-only [studentIdsRef] set do
      not flow into any value handed to [onStudentsDetected]; they are left
      out. *)

From Stdlib Require Import QArith ZArith Qround List String Bool Arith Lia Lqa.
From Stdlib Require Import DecimalString DecimalNat Sorted FinFun.
Import ListNotations.

Local Open Scope list_scope.
Local Open Scope Q_scope.

(** ** The data model of [@/types/emotion] *)

Module Emotion.

(** The union type [EmotionType]: the seven string literals that
    [detectStudents] lists in its [emotions] array. *)
Inductive EmotionType : Type :=
| happy | neutral | sad | angry | surprised | fearful | disgust.

(** Modelled from the spec: the engagement categories.  The module
    [@/types/emotion] is not part of the sources at hand; the caller compares
    the result of the classifier with the literal ['Attentive'], and the
    specification names the closed enumeration Attentive / Distracted. *)
Inductive EngagementLevel : Type :=
| Attentive | Distracted.

Definition EmotionType_eq_dec (a b : EmotionType) : {a = b} + {a <> b}.
Proof. decide equality. Defined.

Definition EngagementLevel_eq_dec (a b : EngagementLevel) : {a = b} + {a <> b}.
Proof. decide equality. Defined.

(** Modelled from the spec: the static lookup table of the classifier, one
    entry for each of the seven labels.  The specification fixes that the
    table exists and is keyed by the label, and leaves its entries open, so
    the entries are a parameter of the development. *)
Record EngagementTable : Type := {
  on_happy : EngagementLevel;
  on_neutral : EngagementLevel;
  on_sad : EngagementLevel;
  on_angry : EngagementLevel;
  on_surprised : EngagementLevel;
  on_fearful : EngagementLevel;
  on_disgust : EngagementLevel
}.

(** Modelled from the spec: [emotionToEngagement], the classifier of
    [@/types/emotion] called by [detectStudents]; a pure lookup of the label
    in the fixed table. *)
Definition emotionToEngagement (tbl : EngagementTable) (e : EmotionType)
  : EngagementLevel :=
  match e with
  | happy => on_happy tbl
  | neutral => on_neutral tbl
  | sad => on_sad tbl
  | angry => on_angry tbl
  | surprised => on_surprised tbl
  | fearful => on_fearful tbl
  | disgust => on_disgust tbl
  end.

(** The fixed engagement enumeration. *)
Definition engagement_levels : list EngagementLevel := [Attentive; Distracted].

Record BoundingBox : Type := {
  x : Q;
  y : Q;
  width : Q;
  height : Q
}.

End Emotion.
Import Emotion.

(** [EmotionData], the sample stored in the session-wide [emotionHistory]. *)
Module EmotionData.
Record t : Type := {
  emotion : EmotionType;
  confidence : Q;
  engagement : EngagementLevel;
  timestamp : Z;
  boundingBox : BoundingBox
}.
End EmotionData.

(** [StudentData], the record pushed for each simulated face. *)
Module StudentData.
Record t : Type := {
  id : string;
  name : string;
  currentEmotion : EmotionType;
  engagement : EngagementLevel;
  confidence : Q;
  boundingBox : BoundingBox;
  lastSeen : Z;
  history : list EmotionData.t
}.
End StudentData.

(** ** Effects: the random source and the clock *)

(** What the host answers to the k-th call of [Math.random()] and of
    [Date.now()]. *)
Record Host : Type := {
  Math_random_at : nat -> Q;
  Date_now_at : nat -> Z
}.

(** How many calls of each the code has made. *)
Record Calls : Type := {
  random_calls : nat;
  now_calls : nat
}.

Definition Eff (A : Type) : Type := Calls -> A * Calls.

Definition ret {A : Type} (a : A) : Eff A := fun c => (a, c).

Definition bind {A B : Type} (m : Eff A) (k : A -> Eff B) : Eff B :=
  fun c => let (a, c') := m c in k a c'.

Declare Scope eff_scope.
Delimit Scope eff_scope with eff.
Notation "v <- m ;; k" := (bind m (fun v => k))
  (at level 61, m at next level, right associativity) : eff_scope.

(** The frame the interval callback finds: whether the video element, both
    canvases and both 2d contexts are there, and the size of the video. *)
Record Frame : Type := {
  dom_ready : bool;
  videoWidth : Q;
  videoHeight : Q
}.

(** ** [detectStudents] *)

(** The template literal [`student-${i + 1}`]. *)
Definition decimal (n : nat) : string :=
  NilEmpty.string_of_uint (Nat.to_uint n).

Definition studentId (i : nat) : string :=
  ("student-" ++ decimal (i + 1))%string.

Definition studentName (i : nat) : string :=
  ("Student " ++ decimal (i + 1))%string.

Definition emotions : list EmotionType :=
  [happy; neutral; sad; angry; surprised; fearful; disgust].

Definition weights : list Q := [0.4; 0.3; 0.1; 0.05; 0.05; 0.05; 0.05].

(** The inner loop reads its numbers only through the comparison
    [random < weights[j]] and the subtraction [random -= weights[j]]; both
    are parameters here, so that what is proved of the loop holds whatever
    the arithmetic of the numbers, rounded or exact. *)
Section Weighted_loop.

Context {num : Type} (ltb : num -> num -> bool) (sub : num -> num -> num).

(** The inner loop [for (let j = 0; j < weights.length; j++)], entered at
    index [j] with [ws] the weights from [j] on.  [emotion] is [None] when the
    variable holds [undefined], which is what the read [emotions[j]] gives
    past the end of the array. *)
Fixpoint weighted_loop (ws : list num) (j : nat) (random : num)
  (emotion : option EmotionType) : option EmotionType :=
  match ws with
  | [] => emotion
  | w :: ws' =>
      if ltb random w then nth_error emotions j
      else weighted_loop ws' (S j) (sub random w) emotion
  end.

(** Whether some bucket [random < weights[j]] is taken by the loop. *)
Fixpoint bucket_selected (ws : list num) (random : num) : bool :=
  match ws with
  | [] => false
  | w :: ws' =>
      if ltb random w then true else bucket_selected ws' (sub random w)
  end.

End Weighted_loop.

(** The comparison [a < b] of two rationals. *)
Definition Qltb (a b : Q) : bool := if Qlt_le_dec a b then true else false.

(** [let emotion = 'neutral'; for (...) {...}] for the draw [random]. *)
Definition weighted_emotion (random : Q) : option EmotionType :=
  weighted_loop Qltb Qminus weights 0 random (Some neutral).

(** The label as the typed code sees it.  The read [emotions[j]] is always in
    range (lemma [weighted_emotion_defined] below), so the default is never
    used. *)
Definition pick_emotion (random : Q) : EmotionType :=
  match weighted_emotion random with
  | Some e => e
  | None => neutral
  end.

(** [Math.floor(Math.random() * 3) + 1] for the draw [r]. *)
Definition numStudents_of (r : Q) : Z := (Qfloor (r * 3) + 1)%Z.

(** ** The page [Index] *)

Record AppState : Type := {
  isActive : bool;
  isLoading : bool;
  emotionHistory : list EmotionData.t;
  students : list StudentData.t
}.

(** The initial [useState] values; the detector starts in its loading
    state. *)
Definition initial : AppState :=
  {| isActive := false; isLoading := true; emotionHistory := []; students := [] |}.

Definition toggleTracking (st : AppState) : AppState :=
  {| isActive := negb (isActive st); isLoading := isLoading st;
     emotionHistory := emotionHistory st; students := students st |}.

(** [setIsLoading(false)], reached on both branches of [loadModel]. *)
Definition modelSettled (st : AppState) : AppState :=
  {| isActive := isActive st; isLoading := false;
     emotionHistory := emotionHistory st; students := students st |}.

Inductive Event : Type :=
| ToggleTracking
| ModelSettled
| IntervalElapsed (f : Frame).

Definition no_calls : Calls := {| random_calls := 0; now_calls := 0 |}.

(** What [Index] renders: for each guarded block of the JSX, whether it is
    there and with which props. *)
Record View : Type := {
  count_badge : option nat;
  metrics_section : option (list EmotionData.t);
  student_cards : list StudentData.t;
  charts_and_insights : option (list EmotionData.t);
  getting_started : bool
}.

Definition render (st : AppState) : View :=
  {| count_badge :=
       if (0 <? List.length (students st))%nat then Some (List.length (students st)) else None;
     metrics_section :=
       if (0 <? List.length (emotionHistory st))%nat then Some (emotionHistory st) else None;
     student_cards := students st;
     charts_and_insights :=
       if (5 <? List.length (emotionHistory st))%nat then Some (emotionHistory st) else None;
     getting_started := (List.length (emotionHistory st) =? 0)%nat |}.

(** The most recent sample of a history kept oldest first, if there is
    one. *)
Definition last_sample (h : list EmotionData.t) : option EmotionData.t :=
  List.last (map Some h) None.

(** ** Concrete sessions used as test inputs *)

(** A table in which the labels happy, neutral and surprised count as
    attentive.  It stands for one admissible choice of the entries. *)
Definition sample_table : EngagementTable :=
  {| on_happy := Attentive; on_neutral := Attentive; on_sad := Distracted;
     on_angry := Distracted; on_surprised := Attentive;
     on_fearful := Distracted; on_disgust := Distracted |}.

Definition camera : Frame :=
  {| dom_ready := true; videoWidth := 640; videoHeight := 480 |}.

(** A frame taken before the video has a size. *)
Definition unsized_camera : Frame :=
  {| dom_ready := true; videoWidth := 0; videoHeight := 0 |}.

(** Every draw is one fifth, so each frame shows one face, at the same
    place and with the same label; the clock advances by one second per
    reading. *)
Definition steady_host : Host :=
  {| Math_random_at := fun _ => 0.2;
     Date_now_at := fun k => (1700000000000 + 1000 * Z.of_nat k)%Z |}.

(** The same draws, with a wall clock that is set back five seconds after
    the first frame. *)
Definition set_back_host : Host :=
  {| Math_random_at := fun _ => 0.2;
     Date_now_at := fun k =>
       if (k <? 2)%nat then 1700000000000%Z else 1699999995000%Z |}.

(** The one subject that [steady_host] shows in a [camera] frame, last seen
    at [seen]. *)
Definition steady_student (seen : Z) : StudentData.t :=
  {| StudentData.id := "student-1";
     StudentData.name := "Student 1";
     StudentData.currentEmotion := happy;
     StudentData.engagement := Attentive;
     StudentData.confidence := 0.7 + 0.2 * 0.3;
     StudentData.boundingBox :=
       {| x := 0.2 * (640 - (150 + 0.2 * 100));
          y := 0.2 * (480 - (180 + 0.2 * 120));
          width := 150 + 0.2 * 100;
          height := 180 + 0.2 * 120 |};
     StudentData.lastSeen := seen;
     StudentData.history := [] |}.

(** The sample logged for that subject at time [stamped]. *)
Definition steady_sample (stamped : Z) : EmotionData.t :=
  {| EmotionData.emotion := happy;
     EmotionData.confidence := 0.7 + 0.2 * 0.3;
     EmotionData.engagement := Attentive;
     EmotionData.timestamp := stamped;
     EmotionData.boundingBox :=
       {| x := 0.2 * (640 - (150 + 0.2 * 100));
          y := 0.2 * (480 - (180 + 0.2 * 120));
          width := 150 + 0.2 * 100;
          height := 180 + 0.2 * 120 |} |}.

(** Three faces in the first frame, one in the second, three in the third;
    the three frames are two seconds apart. *)
Definition crowd_host : Host :=
  {| Math_random_at := fun k =>
       if (k =? 0)%nat then 0.9
       else if (k =? 19)%nat then 0.1
       else if (k =? 26)%nat then 0.9
       else 0.5;
     Date_now_at := fun k =>
       if (k <? 6)%nat then 1700000000000%Z
       else if (k <? 8)%nat then 1700000002000%Z
       else 1700000004000%Z |}.

Definition start_events : list Event := [ModelSettled; ToggleTracking].

(** The model settles, tracking is switched on, and the interval fires once,
    twice, three times. *)
Definition one_frame : list Event := start_events ++ [IntervalElapsed camera].

Definition two_frames : list Event := one_frame ++ [IntervalElapsed camera].

Definition three_frames : list Event := two_frames ++ [IntervalElapsed camera].

(** The same start followed by six firings of the interval. *)
Definition six_frames : list Event :=
  start_events ++ repeat (IntervalElapsed camera) 6.

(** The call counts after [dr] more draws and [dn] more clock readings. *)
Definition advance (c : Calls) (dr dn : nat) : Calls :=
  {| random_calls := random_calls c + dr; now_calls := now_calls c + dn |}.

Section Session.

Variable host : Host.
Variable table : EngagementTable.

Local Open Scope eff_scope.

Definition Math_random : Eff Q :=
  fun c => (Math_random_at host (random_calls c),
            {| random_calls := S (random_calls c); now_calls := now_calls c |}).

Definition Date_now : Eff Z :=
  fun c => (Date_now_at host (now_calls c),
            {| random_calls := random_calls c; now_calls := S (now_calls c) |}).

(** One turn of the loop [for (let i = 0; i < numStudents; i++)]: the record
    pushed for index [i]. *)
Definition detect_one (f : Frame) (i : nat) : Eff StudentData.t :=
  r_w <- Math_random ;;
  let boxWidth := 150 + r_w * 100 in
  r_h <- Math_random ;;
  let boxHeight := 180 + r_h * 120 in
  r_x <- Math_random ;;
  let x := r_x * (videoWidth f - boxWidth) in
  r_y <- Math_random ;;
  let y := r_y * (videoHeight f - boxHeight) in
  random <- Math_random ;;
  let emotion := pick_emotion random in
  r_c <- Math_random ;;
  let confidence := 0.7 + r_c * 0.3 in
  let engagement := emotionToEngagement table emotion in
  now <- Date_now ;;
  ret {| StudentData.id := studentId i;
         StudentData.name := studentName i;
         StudentData.currentEmotion := emotion;
         StudentData.engagement := engagement;
         StudentData.confidence := confidence;
         StudentData.boundingBox :=
           {| x := x; y := y; width := boxWidth; height := boxHeight |};
         StudentData.lastSeen := now;
         StudentData.history := [] |}.

(** The loop with [n] turns left, at index [i], [students] pushed so far. *)
Fixpoint detect_loop (f : Frame) (n i : nat) (students : list StudentData.t)
  : Eff (list StudentData.t) :=
  match n with
  | O => ret students
  | S n' =>
      s <- detect_one f i ;;
      detect_loop f n' (S i) (students ++ [s])
  end.

(** [detectStudents]: [None] is the early [return] taken when an element or a
    context is missing (the callback [onStudentsDetected] is then not
    called); [Some students] is the argument of [onStudentsDetected]. *)
Definition detectStudents (f : Frame) : Eff (option (list StudentData.t)) :=
  if dom_ready f then
    r <- Math_random ;;
    let numStudents := numStudents_of r in
    students <- detect_loop f (Z.to_nat numStudents) 0 [] ;;
    ret (Some students)
  else ret None.

(** The body of [detectedStudents.forEach(student => ...)]: the sample built
    for one student, stamped with [Date.now()]. *)
Definition emotionData_of (student : StudentData.t) : Eff EmotionData.t :=
  now <- Date_now ;;
  ret {| EmotionData.emotion := StudentData.currentEmotion student;
         EmotionData.confidence := StudentData.confidence student;
         EmotionData.engagement := StudentData.engagement student;
         EmotionData.timestamp := now;
         EmotionData.boundingBox := StudentData.boundingBox student |}.

(** The [forEach] with its [setEmotionHistory(prev => [...prev, emotionData])]. *)
Fixpoint append_history (detected : list StudentData.t)
  (prev : list EmotionData.t) : Eff (list EmotionData.t) :=
  match detected with
  | [] => ret prev
  | student :: rest =>
      emotionData <- emotionData_of student ;;
      append_history rest (prev ++ [emotionData])
  end.

Definition handleStudentsDetected (detectedStudents : list StudentData.t)
  (st : AppState) : Eff AppState :=
  h <- append_history detectedStudents (emotionHistory st) ;;
  ret {| isActive := isActive st; isLoading := isLoading st;
         emotionHistory := h; students := detectedStudents |}.

(** One firing of [setInterval(detectStudents, 2000)].  The interval is
    installed only while [isActive && !isLoading]. *)
Definition tick (f : Frame) (st : AppState) : Eff AppState :=
  if isActive st && negb (isLoading st) then
    detected <- detectStudents f ;;
    match detected with
    | Some detectedStudents => handleStudentsDetected detectedStudents st
    | None => ret st
    end
  else ret st.

Definition step (e : Event) (st : AppState) : Eff AppState :=
  match e with
  | ToggleTracking => ret (toggleTracking st)
  | ModelSettled => ret (modelSettled st)
  | IntervalElapsed f => tick f st
  end.

Fixpoint run (events : list Event) (st : AppState) : Eff AppState :=
  match events with
  | [] => ret st
  | e :: rest => st' <- step e st ;; run rest st'
  end.

(** The state of the page after the events [events] of a fresh session. *)
Definition session (events : list Event) : AppState :=
  fst (run events initial no_calls).

(** The call counts after the events [events] of a fresh session. *)
Definition session_calls (events : list Event) : Calls :=
  snd (run events initial no_calls).

(** ** The effects in closed form *)

(** The records pushed by [n] turns of the loop from index [i]. *)
Fixpoint batch (f : Frame) (n i : nat) (c : Calls) : list StudentData.t :=
  match n with
  | O => []
  | S n' => fst (detect_one f i c) :: batch f n' (S i) (advance c 6 1)
  end.

(** The count of faces drawn by [detectStudents] at call state [c]. *)
Definition numStudents (c : Calls) : nat :=
  Z.to_nat (numStudents_of (Math_random_at host (random_calls c))).

(** The samples that the [forEach] appends for [detected]. *)
Fixpoint stamp (detected : list StudentData.t) (c : Calls) : list EmotionData.t :=
  match detected with
  | [] => []
  | student :: rest => fst (emotionData_of student c) :: stamp rest (advance c 0 1)
  end.

(** A sample that copies the four current fields of a student. *)
Definition sample_of (s : StudentData.t) (e : EmotionData.t) : Prop :=
  EmotionData.emotion e = StudentData.currentEmotion s /\
  EmotionData.confidence e = StudentData.confidence s /\
  EmotionData.engagement e = StudentData.engagement s /\
  EmotionData.boundingBox e = StudentData.boundingBox s.

(** The batch that the event [e] hands to [handleStudentsDetected] in state
    [st] at call state [c]; empty when the event is not a firing of the
    interval or the callback returns early. *)
Definition delivered (e : Event) (st : AppState) (c : Calls) : list StudentData.t :=
  match e with
  | IntervalElapsed f =>
      if isActive st && negb (isLoading st) then
        match fst (detectStudents f c) with
        | Some detectedStudents => detectedStudents
        | None => []
        end
      else []
  | _ => []
  end.

(** Whether the event [e] reaches [onStudentsDetected] from state [st]: a
    firing of the interval while tracking is on, the model has settled and
    the elements are there. *)
Definition fires (e : Event) (st : AppState) : bool :=
  match e with
  | IntervalElapsed f => isActive st && negb (isLoading st) && dom_ready f
  | _ => false
  end.

(** The call state at which [handleStudentsDetected] starts when the
    interval fires at call state [c]. *)
Definition after_detection (c : Calls) : Calls :=
  advance c (1 + 6 * numStudents c) (numStudents c).

(** A student, and a sample, whose engagement is the table's entry for its
    label. *)
Definition classified_student (s : StudentData.t) : Prop :=
  StudentData.engagement s = emotionToEngagement table (StudentData.currentEmotion s).

Definition classified_sample (e : EmotionData.t) : Prop :=
  EmotionData.engagement e = emotionToEngagement table (EmotionData.emotion e).

(** The contract of [Math.random()]: every draw lies in [0,1). *)
Definition draws_in_range : Prop :=
  forall k, 0 <= Math_random_at host k /\ Math_random_at host k < 1.

(** A clock that never runs backwards. *)
Definition clock_monotone : Prop :=
  forall i j, (i <= j)%nat -> (Date_now_at host i <= Date_now_at host j)%Z.

(** How many of the events [events], run from state [st] at call state [c],
    reach [onStudentsDetected]. *)
Fixpoint deliveries (events : list Event) (st : AppState) (c : Calls) : nat :=
  match events with
  | [] => 0
  | e :: rest =>
      ((if fires e st then 1 else 0) +
       deliveries rest (fst (step e st c)) (snd (step e st c)))%nat
  end.

(** The deliveries of a fresh session. *)
Definition session_deliveries (events : list Event) : nat :=
  deliveries events initial no_calls.


(** A box that lies inside the frame [f]. *)
Definition within_frame (f : Frame) (b : BoundingBox) : Prop :=
  0 <= x b /\ x b + width b <= videoWidth f /\
  0 <= y b /\ y b + height b <= videoHeight f.

Lemma advance_0 c : advance c 0 0 = c.
Proof. destruct c; unfold advance; simpl. now rewrite !Nat.add_0_r. Qed.

Lemma advance_advance c a b a' b' :
  advance (advance c a b) a' b' = advance c (a + a') (b + b').
Proof. unfold advance; simpl. f_equal; lia. Qed.

Lemma detect_one_calls f i c : snd (detect_one f i c) = advance c 6 1.
Proof.
  destruct c as [r n]. unfold advance. simpl. f_equal; lia.
Qed.

Lemma detect_loop_batch f n : forall i acc c,
  detect_loop f n i acc c = (acc ++ batch f n i c, advance c (6 * n) n).
Proof.
  induction n as [|n IH]; intros i acc c.
  - simpl. unfold ret. now rewrite app_nil_r, advance_0.
  - cbn [detect_loop batch]. unfold bind at 1.
    pose proof (detect_one_calls f i c) as Hc.
    destruct (detect_one f i c) as [s c1]. simpl in Hc. subst c1.
    rewrite IH. cbn [fst]. rewrite <- app_assoc. cbn [app].
    rewrite advance_advance. f_equal. f_equal; lia.
Qed.

Lemma batch_length f n : forall i c, List.length (batch f n i c) = n.
Proof. induction n; intros; cbn [batch List.length]; auto. Qed.

(** Any property that every pushed record has, every record of the batch
    has. *)
Lemma batch_Forall (P : StudentData.t -> Prop) f :
  (forall i c, P (fst (detect_one f i c))) ->
  forall n i c, Forall P (batch f n i c).
Proof.
  intros HP n. induction n; intros; cbn [batch]; constructor; auto.
Qed.

Lemma batch_ids f n : forall i c,
  map StudentData.id (batch f n i c) = map studentId (seq i n).
Proof.
  induction n as [|n IH]; intros i c; [reflexivity|].
  cbn [batch map seq]. now rewrite IH.
Qed.

Lemma detectStudents_ready f c :
  dom_ready f = true ->
  detectStudents f c =
    (Some (batch f (numStudents c) 0 (advance c 1 0)),
     advance c (1 + 6 * numStudents c) (numStudents c)).
Proof.
  intros Hr. unfold detectStudents. rewrite Hr.
  unfold bind at 1. unfold Math_random at 1.
  fold (numStudents c).
  replace {| random_calls := S (random_calls c); now_calls := now_calls c |}
    with (advance c 1 0) by (unfold advance; f_equal; lia).
  unfold bind. rewrite detect_loop_batch. unfold ret. cbn [app].
  rewrite advance_advance. f_equal.
Qed.

Lemma detectStudents_not_ready f c :
  dom_ready f = false -> detectStudents f c = (None, c).
Proof. intros Hr. unfold detectStudents. now rewrite Hr. Qed.

Lemma detectStudents_Some f c detected c' :
  detectStudents f c = (Some detected, c') ->
  detected = batch f (numStudents c) 0 (advance c 1 0).
Proof.
  destruct (dom_ready f) eqn:Hr.
  - rewrite detectStudents_ready by assumption. congruence.
  - rewrite detectStudents_not_ready by assumption. discriminate.
Qed.

Lemma append_history_stamp detected : forall prev c,
  append_history detected prev c =
    (prev ++ stamp detected c, advance c 0 (List.length detected)).
Proof.
  induction detected as [|s rest IH]; intros prev c.
  - simpl. unfold ret. now rewrite app_nil_r, advance_0.
  - cbn [append_history stamp]. unfold bind at 1.
    assert (Hc : snd (emotionData_of s c) = advance c 0 1).
    { destruct c; unfold advance; simpl; f_equal; lia. }
    destruct (emotionData_of s c) as [e c1]. simpl in Hc. subst c1.
    rewrite IH. cbn [fst List.length]. rewrite <- app_assoc. cbn [app].
    rewrite advance_advance. reflexivity.
Qed.

Lemma stamp_length detected : forall c,
  List.length (stamp detected c) = List.length detected.
Proof. induction detected; intros; simpl; auto. Qed.

Lemma stamp_timestamps detected : forall c,
  map EmotionData.timestamp (stamp detected c) =
  map (Date_now_at host) (seq (now_calls c) (List.length detected)).
Proof.
  induction detected as [|s rest IH]; intros c; simpl; [reflexivity|].
  rewrite IH. simpl. now rewrite Nat.add_1_r.
Qed.

Lemma stamp_samples detected : forall c,
  Forall2 sample_of detected (stamp detected c).
Proof.
  induction detected as [|s rest IH]; intros c; simpl; constructor; auto.
  repeat split.
Qed.

Lemma handleStudentsDetected_eq detected st c :
  handleStudentsDetected detected st c =
    ({| isActive := isActive st; isLoading := isLoading st;
        emotionHistory := emotionHistory st ++ stamp detected c;
        students := detected |},
     advance c 0 (List.length detected)).
Proof.
  unfold handleStudentsDetected, bind.
  now rewrite append_history_stamp.
Qed.

(** *** One event *)

Lemma step_fires e st c :
  fires e st = true ->
  step e st c =
    handleStudentsDetected (delivered e st c) st (after_detection c) /\
  exists f, delivered e st c = batch f (numStudents c) 0 (advance c 1 0).
Proof.
  destruct e as [| |f]; simpl; try discriminate.
  intros H. apply andb_prop in H as [Ha Hr].
  unfold tick. rewrite Ha. unfold bind at 1.
  rewrite (detectStudents_ready f c Hr). cbn [fst]. eauto.
Qed.

Lemma step_idle e st c :
  fires e st = false ->
  emotionHistory (fst (step e st c)) = emotionHistory st /\
  students (fst (step e st c)) = students st /\
  snd (step e st c) = c /\
  delivered e st c = [].
Proof.
  destruct e as [| |f]; simpl; auto.
  unfold tick. destruct (isActive st && negb (isLoading st)); simpl.
  - intros Hr. unfold bind. rewrite (detectStudents_not_ready f c Hr). auto.
  - auto.
Qed.

(** What an event does to the session-wide history, whether it fires or
    not. *)
Lemma step_history e st c :
  emotionHistory (fst (step e st c)) =
  emotionHistory st ++ stamp (delivered e st c) (after_detection c).
Proof.
  destruct (fires e st) eqn:Hf.
  - destruct (step_fires e st c Hf) as [-> _].
    now rewrite handleStudentsDetected_eq.
  - destruct (step_idle e st c Hf) as (-> & _ & _ & ->).
    simpl. now rewrite app_nil_r.
Qed.

Lemma step_students e st c :
  students (fst (step e st c)) =
  if fires e st then delivered e st c else students st.
Proof.
  destruct (fires e st) eqn:Hf.
  - destruct (step_fires e st c Hf) as [-> _].
    now rewrite handleStudentsDetected_eq.
  - now destruct (step_idle e st c Hf) as (_ & -> & _).
Qed.

Lemma step_now_calls e st c :
  now_calls (snd (step e st c)) =
  if fires e st
  then (now_calls c + numStudents c + List.length (delivered e st c))%nat
  else now_calls c.
Proof.
  destruct (fires e st) eqn:Hf.
  - destruct (step_fires e st c Hf) as [-> _].
    rewrite handleStudentsDetected_eq. simpl. lia.
  - now destruct (step_idle e st c Hf) as (_ & _ & -> & _).
Qed.

(** *** Runs *)

Lemma run_app ev1 : forall ev2 st c,
  run (ev1 ++ ev2) st c =
  run ev2 (fst (run ev1 st c)) (snd (run ev1 st c)).
Proof.
  induction ev1 as [|e ev1 IH]; intros ev2 st c; [reflexivity|].
  cbn [app run]. unfold bind. destruct (step e st c) as [st1 c1].
  apply IH.
Qed.

Lemma run_snoc events e st c :
  run (events ++ [e]) st c =
  step e (fst (run events st c)) (snd (run events st c)).
Proof.
  rewrite run_app. cbn [run]. unfold bind, ret.
  now destruct (step e _ _).
Qed.

(** A property of the page state and the call counts that every event
    keeps holds after every run. *)
Lemma run_invariant (P : AppState -> Calls -> Prop) :
  (forall e st c, P st c -> P (fst (step e st c)) (snd (step e st c))) ->
  forall events st c,
    P st c -> P (fst (run events st c)) (snd (run events st c)).
Proof.
  intros Hstep events.
  induction events as [|e events IH]; intros st c HP; [exact HP|].
  cbn [run]. unfold bind.
  specialize (Hstep e st c HP). destruct (step e st c) as [st1 c1].
  now apply IH.
Qed.

(** *** The fields of a pushed record *)

Lemma detect_one_id f i c :
  StudentData.id (fst (detect_one f i c)) = studentId i.
Proof. reflexivity. Qed.

Lemma detect_one_history f i c :
  StudentData.history (fst (detect_one f i c)) = [].
Proof. reflexivity. Qed.

Lemma detect_one_engagement f i c :
  StudentData.engagement (fst (detect_one f i c)) =
  emotionToEngagement table (StudentData.currentEmotion (fst (detect_one f i c))).
Proof. reflexivity. Qed.

Lemma detect_one_emotion f i c :
  exists k, StudentData.currentEmotion (fst (detect_one f i c)) =
            pick_emotion (Math_random_at host k).
Proof. eexists. reflexivity. Qed.

Lemma detect_one_confidence f i c :
  exists k, StudentData.confidence (fst (detect_one f i c)) =
            0.7 + Math_random_at host k * 0.3.
Proof. eexists. reflexivity. Qed.

(** *** The weighted choice of the label *)

Lemma weighted_loop_cases {num : Type} (ltb : num -> num -> bool)
  (sub : num -> num -> num) ws : forall j random emotion,
  (j + List.length ws <= List.length emotions)%nat ->
  (bucket_selected ltb sub ws random = false /\
   weighted_loop ltb sub ws j random emotion = emotion) \/
  (bucket_selected ltb sub ws random = true /\
   exists label, weighted_loop ltb sub ws j random emotion = Some label /\
                 In label emotions).
Proof.
  induction ws as [|w ws IH]; intros j random emotion Hj.
  - left. split; reflexivity.
  - cbn [weighted_loop bucket_selected]. cbn [List.length] in Hj.
    destruct (ltb random w).
    + right. split; [reflexivity|].
      destruct (nth_error emotions j) as [label|] eqn:Hn.
      * exists label. split; [reflexivity|]. eapply nth_error_In; eauto.
      * apply nth_error_None in Hn. lia.
    + apply IH. lia.
Qed.

Lemma weighted_loop_label {num : Type} (ltb : num -> num -> bool)
  (sub : num -> num -> num) ws random :
  List.length ws = List.length weights ->
  exists label,
    weighted_loop ltb sub ws 0 random (Some neutral) = Some label /\
    In label emotions /\
    (bucket_selected ltb sub ws random = false -> label = neutral).
Proof.
  intros Hlen.
  destruct (weighted_loop_cases ltb sub ws 0 random (Some neutral))
    as [[Hb ->]|[Hb (label & -> & Hin)]]; [rewrite Hlen; simpl; lia| |].
  - exists neutral. repeat split; simpl; auto.
  - exists label. repeat split; auto. congruence.
Qed.

Lemma weighted_emotion_defined random :
  exists label, weighted_emotion random = Some label.
Proof.
  destruct (weighted_loop_label Qltb Qminus weights random eq_refl)
    as (label & Hl & _). eauto.
Qed.

(** In exact arithmetic the weights add up to one, so a draw below one
    always takes a bucket. *)
Lemma bucket_selected_below_one random :
  random < 1 -> bucket_selected Qltb Qminus weights random = true.
Proof.
  intros Hr. unfold weights. cbn [bucket_selected]. unfold Qltb.
  repeat match goal with
         | |- context [Qlt_le_dec ?a ?b] => destruct (Qlt_le_dec a b)
         end; try reflexivity.
  exfalso. lra.
Qed.

Lemma pick_emotion_weighted random :
  weighted_emotion random = Some (pick_emotion random).
Proof.
  unfold pick_emotion.
  destruct (weighted_emotion_defined random) as [label ->]. reflexivity.
Qed.

(** *** The ids of a batch *)

Lemma decimal_inj n m : decimal n = decimal m -> n = m.
Proof.
  unfold decimal. intros H.
  apply Unsigned.to_uint_inj.
  assert (Some (Nat.to_uint n) = Some (Nat.to_uint m)) as Hs.
  { rewrite <- !NilEmpty.usu. now rewrite H. }
  now injection Hs.
Qed.

Lemma studentId_inj i j : studentId i = studentId j -> i = j.
Proof.
  unfold studentId. cbn [String.append]. intros H.
  injection H as H. apply decimal_inj in H. lia.
Qed.

Lemma studentIds_NoDup i n : NoDup (map studentId (seq i n)).
Proof.
  apply Injective_map_NoDup; [|apply seq_NoDup].
  intros a b. apply studentId_inj.
Qed.

(** *** Sorted lists *)

Lemma StronglySorted_app_intro {A : Type} (R : A -> A -> Prop) l1 : forall l2,
  StronglySorted R l1 -> StronglySorted R l2 ->
  (forall a b, In a l1 -> In b l2 -> R a b) ->
  StronglySorted R (l1 ++ l2).
Proof.
  induction l1 as [|a l1 IH]; intros l2 H1 H2 H12; [exact H2|].
  apply StronglySorted_inv in H1 as [H1 Ha].
  cbn [app]. constructor.
  - apply IH; auto. intros; apply H12; simpl; auto.
  - apply Forall_app. split; [exact Ha|].
    apply Forall_forall. intros; apply H12; simpl; auto.
Qed.

Lemma StronglySorted_seq i n : StronglySorted lt (seq i n).
Proof.
  revert i. induction n as [|n IH]; intros i; cbn [seq]; constructor; auto.
  apply Forall_forall. intros k Hk. apply in_seq in Hk. lia.
Qed.

Lemma StronglySorted_map_mono {A B : Type} (RA : A -> A -> Prop)
  (RB : B -> B -> Prop) (g : A -> B) l :
  (forall a b, RA a b -> RB (g a) (g b)) ->
  StronglySorted RA l -> StronglySorted RB (map g l).
Proof.
  intros Hg. induction 1 as [|a l Hs IH Ha]; cbn [map]; constructor; auto.
  apply Forall_map. eapply Forall_impl; [|exact Ha]. auto.
Qed.

(** *** Invariants of a session *)

Lemma delivered_batch e st c :
  exists f n c0, delivered e st c = batch f n 0 c0.
Proof.
  destruct (fires e st) eqn:Hf.
  - destruct (step_fires e st c Hf) as [_ [f Hd]]. eauto.
  - destruct (step_idle e st c Hf) as (_ & _ & _ & ->).
    exists camera, 0%nat, c. reflexivity.
Qed.

(** The store is always a batch of [detectStudents] (the empty one at the
    start). *)
Lemma session_store events :
  exists f n c, students (session events) = batch f n 0 c.
Proof.
  unfold session.
  apply (run_invariant (fun st _ => exists f n c, students st = batch f n 0 c)).
  - intros e st c Hst. rewrite step_students.
    destruct (fires e st); [apply delivered_batch|exact Hst].
  - exists camera, 0%nat, no_calls. reflexivity.
Qed.

Lemma session_store_Forall (P : StudentData.t -> Prop) events :
  (forall f i c, P (fst (detect_one f i c))) ->
  Forall P (students (session events)).
Proof.
  intros HP. destruct (session_store events) as (f & n & c & ->).
  apply batch_Forall. apply HP.
Qed.

Lemma session_histories_empty events s :
  In s (students (session events)) -> StudentData.history s = [].
Proof.
  revert s. apply Forall_forall. apply session_store_Forall.
  intros; apply detect_one_history.
Qed.

Lemma session_store_ids events :
  map StudentData.id (students (session events)) =
  map studentId (seq 0 (List.length (students (session events)))).
Proof.
  destruct (session_store events) as (f & n & c & ->).
  now rewrite batch_ids, batch_length.
Qed.

Lemma session_snoc events e :
  session (events ++ [e]) =
  fst (step e (session events) (session_calls events)).
Proof. unfold session, session_calls. now rewrite run_snoc. Qed.

Lemma session_calls_snoc events e :
  session_calls (events ++ [e]) =
  snd (step e (session events) (session_calls events)).
Proof. unfold session, session_calls. now rewrite run_snoc. Qed.

Lemma sample_of_classified l l' :
  Forall2 sample_of l l' -> Forall classified_student l ->
  Forall classified_sample l'.
Proof.
  induction 1 as [|s e l l' Hse _ IH]; intros Hl; constructor.
  - apply Forall_inv in Hl. destruct Hse as (He & _ & Hg & _).
    unfold classified_sample, classified_student in *. congruence.
  - apply IH. eapply Forall_inv_tail; eauto.
Qed.

Lemma session_history_classified events :
  Forall classified_sample (emotionHistory (session events)).
Proof.
  unfold session.
  apply (run_invariant (fun st _ => Forall classified_sample (emotionHistory st))).
  - intros e st c Hst. rewrite step_history. apply Forall_app. split; [exact Hst|].
    eapply sample_of_classified; [apply stamp_samples|].
    destruct (delivered_batch e st c) as (f & n & c0 & ->).
    apply batch_Forall. intros; apply detect_one_engagement.
  - constructor.
Qed.

(** The timestamps of the history are clock readings, listed in the order
    in which the readings were made. *)
Lemma session_history_clocked events :
  exists ks,
    map EmotionData.timestamp (emotionHistory (session events)) =
      map (Date_now_at host) ks /\
    StronglySorted lt ks /\
    Forall (fun k => (k < now_calls (session_calls events))%nat) ks.
Proof.
  unfold session, session_calls.
  apply (run_invariant (fun st c => exists ks,
    map EmotionData.timestamp (emotionHistory st) = map (Date_now_at host) ks /\
    StronglySorted lt ks /\ Forall (fun k => (k < now_calls c)%nat) ks)).
  - intros e st c (ks & Hts & Hs & Hb).
    exists (ks ++ seq (now_calls (after_detection c))
                      (List.length (delivered e st c))).
    rewrite step_history, !map_app, stamp_timestamps, Hts.
    split; [reflexivity|]. rewrite step_now_calls.
    rewrite Forall_forall in Hb. split.
    + apply StronglySorted_app_intro; auto using StronglySorted_seq.
      intros a b Ha Hb'. apply Hb in Ha. apply in_seq in Hb'.
      simpl in Hb'. lia.
    + apply Forall_app. split; apply Forall_forall; intros k Hk.
      * apply Hb in Hk. destruct (fires e st); lia.
      * apply in_seq in Hk. simpl in Hk.
        destruct (fires e st) eqn:Hf; [lia|].
        destruct (step_idle e st c Hf) as (_ & _ & _ & Hd).
        rewrite Hd in Hk. simpl in Hk. lia.
  - exists []. repeat split; constructor.
Qed.

(** ** The properties of the engine *)

(** C1, as amended.  Identity is the position in the batch, not the place of
    the bounding box: the subjects found at the same position [i] of the
    store before and after an event carry the same id [student-(i+1)]
    whatever their bounding boxes, the history of both is empty (its length
    stays 0), and when the event delivers a batch the store holds exactly the
    subjects of that batch, one for each detection. *)
Theorem identity_by_batch_position events e i s1 s2 :
  nth_error (students (session events)) i = Some s1 ->
  nth_error (students (session (events ++ [e]))) i = Some s2 ->
  StudentData.id s1 = studentId i /\
  StudentData.id s2 = StudentData.id s1 /\
  List.length (StudentData.history s1) = 0%nat /\
  List.length (StudentData.history s2) = 0%nat /\
  (fires e (session events) = true ->
   List.length (students (session (events ++ [e]))) =
   List.length (delivered e (session events) (session_calls events))).
Proof.
  intros H1 H2.
  assert (Hid : forall evs k s, nth_error (students (session evs)) k = Some s ->
                StudentData.id s = studentId k).
  { intros evs k s Hk.
    pose proof (map_nth_error StudentData.id _ _ Hk) as Hm.
    rewrite session_store_ids, nth_error_map, nth_error_seq in Hm.
    destruct (k <? _)%nat; simpl in Hm; congruence. }
  rewrite (Hid _ _ _ H1), (Hid _ _ _ H2).
  rewrite (session_histories_empty _ _ (nth_error_In _ _ H1)).
  rewrite (session_histories_empty _ _ (nth_error_In _ _ H2)).
  repeat split; auto.
  intros Hf. now rewrite session_snoc, step_students, Hf.
Qed.

(** C2, as amended.  The store after an event that delivers a batch is
    exactly that batch, so a subject without a detection in the batch is
    absent from the snapshot at once, no timeout being consulted, and the
    detection at position [i] of the batch gets the id [student-(i+1)] again
    whether or not a subject of that id was dropped before; an event that
    delivers no batch leaves the store as it was, however much time has
    passed. *)
Theorem store_is_latest_batch events e :
  (fires e (session events) = true ->
   students (session (events ++ [e])) =
     delivered e (session events) (session_calls events) /\
   map StudentData.id (students (session (events ++ [e]))) =
     map studentId
       (seq 0 (List.length (delivered e (session events) (session_calls events))))) /\
  (fires e (session events) = false ->
   students (session (events ++ [e])) = students (session events)).
Proof.
  split; intros Hf.
  - assert (Hs : students (session (events ++ [e])) =
                 delivered e (session events) (session_calls events))
      by now rewrite session_snoc, step_students, Hf.
    split; [exact Hs|]. now rewrite session_store_ids, Hs.
  - now rewrite session_snoc, step_students, Hf.
Qed.

(** C3, as amended.  Every subject of the store has an empty history (length
    0, so there is no most recent sample in it); the sample that the same
    event appends to the session-wide history for a subject carries that
    subject's currentEmotion, confidence, engagement and bounding box. *)
Theorem subject_fields_match_logged_sample events e :
  Forall (fun s => StudentData.history s = [])
         (students (session (events ++ [e]))) /\
  (fires e (session events) = true ->
   exists appended,
     emotionHistory (session (events ++ [e])) =
       emotionHistory (session events) ++ appended /\
     Forall2 sample_of (students (session (events ++ [e]))) appended).
Proof.
  split.
  - apply Forall_forall. apply session_histories_empty.
  - intros Hf. rewrite session_snoc, step_history, step_students, Hf.
    eexists. split; [reflexivity|]. apply stamp_samples.
Qed.

(** C4.  Whatever the retention cap and however many events the session has
    processed, the history of a subject of the store is no longer than the
    cap. *)
Theorem history_within_retention_cap (cap : nat) events s :
  In s (students (session events)) ->
  (List.length (StudentData.history s) <= cap)%nat.
Proof.
  intros Hs. rewrite (session_histories_empty events s Hs). simpl. lia.
Qed.

Lemma session_history_grows events : forall more,
  exists later,
    emotionHistory (session (events ++ more)) =
    emotionHistory (session events) ++ later.
Proof.
  intros more. induction more as [|e more IH] using rev_ind.
  - exists []. now rewrite !app_nil_r.
  - destruct IH as [later IH]. rewrite app_assoc, session_snoc, step_history, IH.
    eexists. now rewrite <- app_assoc.
Qed.

(** C5, as amended.  The session-wide history only grows by appending.  An event appends
    one sample for each subject it delivers, in order, each copying the
    subject's fields and stamped with the clock readings made while the
    batch is handled; what was in the history before stays in place as a
    prefix, after this event and after any further events; and when the
    clock never runs backwards the timestamps of the history are
    non-decreasing in append order. *)
Theorem emotion_history_append_only events e :
  (exists appended,
     emotionHistory (session (events ++ [e])) =
       emotionHistory (session events) ++ appended /\
     Forall2 sample_of
       (delivered e (session events) (session_calls events)) appended /\
     map EmotionData.timestamp appended =
       map (Date_now_at host)
         (seq (now_calls (after_detection (session_calls events)))
              (List.length (delivered e (session events) (session_calls events))))) /\
  (forall more, exists later,
     emotionHistory (session (events ++ more)) =
       emotionHistory (session events) ++ later) /\
  ((forall i j, (i <= j)%nat -> (Date_now_at host i <= Date_now_at host j)%Z) ->
   StronglySorted Z.le
     (map EmotionData.timestamp (emotionHistory (session events)))).
Proof.
  split; [|split].
  - rewrite session_snoc, step_history. eexists. split; [reflexivity|].
    split; [apply stamp_samples|apply stamp_timestamps].
  - apply session_history_grows.
  - intros Hmono. destruct (session_history_clocked events) as (ks & -> & Hs & _).
    eapply StronglySorted_map_mono; [|exact Hs].
    intros a b Hab. apply Hmono. lia.
Qed.

(** C6, as amended.  When the store and the history are empty and an empty
    batch arrives, the handler returns (reading neither the clock nor the
    random source) a state with zero subjects and an empty history, and the
    page renders no count badge, no metrics overview, no subject card and no
    charts-and-insights block: it shows the getting-started message.  No
    aggregate metrics and no finding are produced for an empty history. *)
Theorem empty_session_view st c :
  emotionHistory st = [] -> students st = [] ->
  students (fst (handleStudentsDetected [] st c)) = [] /\
  emotionHistory (fst (handleStudentsDetected [] st c)) = [] /\
  snd (handleStudentsDetected [] st c) = c /\
  render (fst (handleStudentsDetected [] st c)) =
    {| count_badge := None; metrics_section := None; student_cards := [];
       charts_and_insights := None; getting_started := true |}.
Proof.
  intros Hh Hs. rewrite handleStudentsDetected_eq. cbn [fst snd stamp List.length].
  rewrite advance_0, Hh. repeat split.
Qed.

(** X15.  Within a session the engagement that is stored is always the
    classifier's answer for the label stored beside it: this holds of every
    sample of the history and of every student of the store, so two samples
    of the history with the same label have the same engagement. *)
Theorem session_engagement_classified events :
  (Forall classified_sample (emotionHistory (session events)) /\
   Forall classified_student (students (session events))) /\
  (forall a b,
     In a (emotionHistory (session events)) ->
     In b (emotionHistory (session events)) ->
     EmotionData.emotion a = EmotionData.emotion b ->
     EmotionData.engagement a = EmotionData.engagement b).
Proof.
  split.
  - split; [apply session_history_classified|].
    apply session_store_Forall. intros; apply detect_one_engagement.
  - intros a b Ha Hb Hab.
    pose proof (session_history_classified events) as Hc.
    rewrite Forall_forall in Hc.
    rewrite (Hc a Ha), (Hc b Hb). now rewrite Hab.
Qed.

(** C8.  In every state of the store the subject ids are pairwise
    distinct. *)
Theorem store_ids_pairwise_distinct events :
  NoDup (map StudentData.id (students (session events))).
Proof. rewrite session_store_ids. apply studentIds_NoDup. Qed.

(** C9.  When every draw of the random source lies in [0,1), the confidence
    of every detection handed to [onStudentsDetected] lies in [0,1]. *)
Theorem confidence_in_unit_interval f c detected c' :
  (forall k, 0 <= Math_random_at host k /\ Math_random_at host k < 1) ->
  detectStudents f c = (Some detected, c') ->
  Forall (fun s => 0 <= StudentData.confidence s /\ StudentData.confidence s <= 1)
         detected.
Proof.
  intros Hr Hd. apply detectStudents_Some in Hd. subst detected.
  apply batch_Forall. intros i c0.
  destruct (detect_one_confidence f i c0) as [k ->].
  destruct (Hr k) as [Hlo Hhi]. split; lra.
Qed.

(** C10.  For every draw, and whatever the arithmetic behind the comparison
    and the subtraction (so under the rounding of binary64 as well as in
    exact arithmetic), the weighted loop over seven weights ends with the
    variable holding a label of the seven-element enumeration, never
    [undefined]; the label is neutral when no bucket is taken; and every
    detection handed to [onStudentsDetected] carries the label that the loop
    produced for one of the draws. *)
Theorem weighted_emotion_in_enumeration :
  (forall (num : Type) (ltb : num -> num -> bool) (sub : num -> num -> num)
          (ws : list num) (random : num),
     List.length ws = List.length weights ->
     exists label,
       weighted_loop ltb sub ws 0 random (Some neutral) = Some label /\
       In label emotions /\
       (bucket_selected ltb sub ws random = false -> label = neutral)) /\
  (forall random, exists label,
     weighted_emotion random = Some label /\ In label emotions /\
     (bucket_selected Qltb Qminus weights random = false -> label = neutral)) /\
  (forall f c detected c',
     detectStudents f c = (Some detected, c') ->
     Forall (fun s => In (StudentData.currentEmotion s) emotions /\
                      exists k,
                        weighted_emotion (Math_random_at host k) =
                        Some (StudentData.currentEmotion s))
            detected).
Proof.
  split; [|split].
  - intros num ltb sub ws random. apply weighted_loop_label.
  - intros random. apply (weighted_loop_label Qltb Qminus weights random eq_refl).
  - intros f c detected c' Hd. apply detectStudents_Some in Hd. subst detected.
    apply batch_Forall. intros i c0.
    destruct (detect_one_emotion f i c0) as [k ->].
    destruct (weighted_loop_label Qltb Qminus weights (Math_random_at host k) eq_refl)
      as (label & Hl & Hin & _).
    fold (weighted_emotion (Math_random_at host k)) in Hl.
    rewrite pick_emotion_weighted in Hl. injection Hl as <-.
    split; [exact Hin|]. exists k. apply pick_emotion_weighted.
Qed.

(** ** Further properties of the detector and the page *)

(** *** The count of faces *)

Lemma numStudents_of_range r :
  0 <= r -> r < 1 -> (1 <= numStudents_of r <= 3)%Z.
Proof.
  intros Hlo Hhi. unfold numStudents_of.
  assert (H0 : (0 <= Qfloor (r * 3))%Z).
  { rewrite <- (Qfloor_Z 0). apply Qfloor_resp_le. change (inject_Z 0) with 0. lra. }
  assert (H3 : (Qfloor (r * 3) < 3)%Z).
  { rewrite Zlt_Qlt. eapply Qle_lt_trans; [apply Qfloor_le|]. change (inject_Z 3) with 3. lra. }
  lia.
Qed.
Lemma numStudents_range c :
  draws_in_range -> (1 <= numStudents c <= 3)%nat.
Proof.
  intros Hr. unfold numStudents.
  destruct (Hr (random_calls c)) as [Hlo Hhi].
  pose proof (numStudents_of_range _ Hlo Hhi). lia.
Qed.

(** X1.  With draws in [0,1) a frame whose elements are there delivers
    between one and three students, never none and never four, after one
    draw for the count plus six draws and one clock reading per student; a
    frame whose elements are missing delivers nothing and makes no call. *)
Theorem detectStudents_count f c :
  draws_in_range ->
  (dom_ready f = true ->
   exists detected,
     detectStudents f c =
       (Some detected,
        advance c (1 + 6 * List.length detected) (List.length detected)) /\
     (1 <= List.length detected <= 3)%nat) /\
  (dom_ready f = false -> detectStudents f c = (None, c)).
Proof.
  intros Hr. split; intros Hd.
  - rewrite (detectStudents_ready f c Hd). eexists. split.
    + rewrite batch_length. reflexivity.
    + rewrite batch_length. now apply numStudents_range.
  - now apply detectStudents_not_ready.
Qed.

(** *** The bounding boxes *)

Lemma detect_one_box f i c :
  exists k_w k_h k_x k_y,
    StudentData.boundingBox (fst (detect_one f i c)) =
      {| x := Math_random_at host k_x *
              (videoWidth f - (150 + Math_random_at host k_w * 100));
         y := Math_random_at host k_y *
              (videoHeight f - (180 + Math_random_at host k_h * 120));
         width := 150 + Math_random_at host k_w * 100;
         height := 180 + Math_random_at host k_h * 120 |}.
Proof. do 4 eexists. reflexivity. Qed.

(** A side [lo + r * span] placed at [r' * (total - side)]. *)
Lemma placed_inside total lo span r r' :
  0 <= r -> r < 1 -> 0 <= r' -> r' < 1 -> 0 <= span -> lo + span <= total ->
  0 <= r' * (total - (lo + r * span)) /\
  r' * (total - (lo + r * span)) + (lo + r * span) <= total.
Proof.
  intros Hr0 Hr1 Hr'0 Hr'1 Hspan Hfit.
  assert (H1 : 0 <= (1 - r) * span) by (apply Qmult_le_0_compat; lra).
  assert (H2 : 0 <= r' * (total - (lo + r * span)))
    by (apply Qmult_le_0_compat; lra).
  assert (H3 : 0 <= (1 - r') * (total - (lo + r * span)))
    by (apply Qmult_le_0_compat; lra).
  split; lra.
Qed.

Lemma placed_overflowing total lo span r r' :
  0 <= r -> r < 1 -> 0 <= r' -> r' < 1 -> 0 <= span -> total < lo ->
  r' * (total - (lo + r * span)) <= 0 /\
  total < r' * (total - (lo + r * span)) + (lo + r * span).
Proof.
  intros Hr0 Hr1 Hr'0 Hr'1 Hspan Hsmall.
  assert (H1 : 0 <= r * span) by (apply Qmult_le_0_compat; lra).
  assert (H2 : 0 <= r' * ((lo + r * span) - total))
    by (apply Qmult_le_0_compat; lra).
  assert (H3 : 0 < (1 - r') * ((lo + r * span) - total))
    by (apply Qmult_lt_0_compat; lra).
  split; lra.
Qed.

(** X2.  With draws in [0,1) every box is at least 150 and at most 250
    wide and at least 180 and at most 300 high, and when the video is at
    least 250 by 300 the box lies inside the frame. *)
Theorem boxes_within_frame f c detected c' :
  draws_in_range ->
  250 <= videoWidth f -> 300 <= videoHeight f ->
  detectStudents f c = (Some detected, c') ->
  Forall (fun s =>
            (150 <= width (StudentData.boundingBox s) /\
             width (StudentData.boundingBox s) <= 250) /\
            (180 <= height (StudentData.boundingBox s) /\
             height (StudentData.boundingBox s) <= 300) /\
            within_frame f (StudentData.boundingBox s))
         detected.
Proof.
  intros Hr HW HH Hd. apply detectStudents_Some in Hd. subst detected.
  apply batch_Forall. intros i c0.
  destruct (detect_one_box f i c0) as (kw & kh & kx & ky & ->).
  destruct (Hr kw) as [Hw0 Hw1], (Hr kh) as [Hh0 Hh1],
           (Hr kx) as [Hx0 Hx1], (Hr ky) as [Hy0 Hy1].
  unfold within_frame. cbn [x y width height].
  assert (Px := placed_inside (videoWidth f) 150 100 _ _ Hw0 Hw1 Hx0 Hx1).
  assert (Py := placed_inside (videoHeight f) 180 120 _ _ Hh0 Hh1 Hy0 Hy1).
  destruct Px as [Px0 Px1]; [lra|lra|].
  destruct Py as [Py0 Py1]; [lra|lra|].
  repeat split; try assumption; lra.
Qed.

(** X3.  With draws in [0,1), when the video is narrower than 150 (as it is
    with width 0 before the stream has a size) no box fits: every box starts
    at or left of the left edge and ends right of the right edge; likewise
    vertically when the video is lower than 180. *)
Theorem boxes_overflow_small_frame f c detected c' :
  draws_in_range ->
  detectStudents f c = (Some detected, c') ->
  (videoWidth f < 150 ->
   Forall (fun s =>
             x (StudentData.boundingBox s) <= 0 /\
             videoWidth f <
               x (StudentData.boundingBox s) + width (StudentData.boundingBox s))
          detected) /\
  (videoHeight f < 180 ->
   Forall (fun s =>
             y (StudentData.boundingBox s) <= 0 /\
             videoHeight f <
               y (StudentData.boundingBox s) + height (StudentData.boundingBox s))
          detected).
Proof.
  intros Hr Hd. apply detectStudents_Some in Hd. subst detected.
  split; intros Hsmall; apply batch_Forall; intros i c0;
    destruct (detect_one_box f i c0) as (kw & kh & kx & ky & ->);
    destruct (Hr kw) as [? ?], (Hr kh) as [? ?],
             (Hr kx) as [? ?], (Hr ky) as [? ?];
    cbn [x y width height].
  - apply placed_overflowing; try assumption; lra.
  - apply placed_overflowing; try assumption; lra.
Qed.

(** *** The weighted choice in exact arithmetic *)

(** X4.  A draw in [0,1) is cut at the running sums of the weights: below
    0.4 the label is happy, then neutral up to 0.7, sad up to 0.8, angry up
    to 0.85, surprised up to 0.9, fearful up to 0.95 and disgust from there
    on. *)
Theorem weighted_emotion_thresholds random :
  0 <= random -> random < 1 ->
  (random < 0.4 -> weighted_emotion random = Some happy) /\
  (0.4 <= random -> random < 0.7 -> weighted_emotion random = Some neutral) /\
  (0.7 <= random -> random < 0.8 -> weighted_emotion random = Some sad) /\
  (0.8 <= random -> random < 0.85 -> weighted_emotion random = Some angry) /\
  (0.85 <= random -> random < 0.9 -> weighted_emotion random = Some surprised) /\
  (0.9 <= random -> random < 0.95 -> weighted_emotion random = Some fearful) /\
  (0.95 <= random -> weighted_emotion random = Some disgust).
Proof.
  intros Hlo Hhi.
  unfold weighted_emotion, weights. cbn [weighted_loop]. unfold Qltb.
  repeat split; intros;
    repeat match goal with
           | |- context [Qlt_le_dec ?a ?b] => destruct (Qlt_le_dec a b)
           end;
    try reflexivity; exfalso; lra.
Qed.

(** *** The confidence *)




(** *** Pausing, and the time before tracking starts *)

Lemma step_inert f st c :
  fires (IntervalElapsed f) st = false ->
  step (IntervalElapsed f) st c = (st, c).
Proof.
  cbn [fires step]. unfold tick. intros Hf.
  destruct (isActive st && negb (isLoading st)); simpl in Hf.
  - unfold bind. now rewrite (detectStudents_not_ready f c Hf).
  - reflexivity.
Qed.

Lemma run_inert frames : forall st c,
  isActive st && negb (isLoading st) = false ->
  run (map IntervalElapsed frames) st c = (st, c).
Proof.
  induction frames as [|f frames IH]; intros st c Hoff; [reflexivity|].
  cbn [map run]. unfold bind.
  assert (Hs : step (IntervalElapsed f) st c = (st, c)).
  { apply step_inert. cbn [fires]. now rewrite Hoff. }
  rewrite Hs. now apply IH.
Qed.

Lemma toggleTracking_twice st : toggleTracking (toggleTracking st) = st.
Proof. destruct st. unfold toggleTracking. simpl. now rewrite negb_involutive. Qed.

(** X6.  Pausing keeps the session.  While tracking is off or the model is
    still loading, firings of the interval change nothing and make no call;
    and switching tracking off, letting the interval fire any number of
    times, and switching it on again gives back the very state and call
    counts from before. *)
Theorem pause_resume_preserves_session frames st c :
  (isActive st && negb (isLoading st) = false ->
   run (map IntervalElapsed frames) st c = (st, c)) /\
  (isActive st = true ->
   run (ToggleTracking :: map IntervalElapsed frames ++ [ToggleTracking]) st c =
   (st, c)).
Proof.
  split; [apply run_inert|].
  intros Hon.
  change (ToggleTracking :: map IntervalElapsed frames ++ [ToggleTracking])
    with ([ToggleTracking] ++ (map IntervalElapsed frames ++ [ToggleTracking])).
  rewrite run_app. cbn [run step]. unfold bind, ret. cbn [fst snd].
  rewrite run_app, run_inert.
  - cbn [fst snd run step]. unfold bind, ret. now rewrite toggleTracking_twice.
  - unfold toggleTracking. simpl. now rewrite Hon.
Qed.

Lemma run_loading events : forall st c,
  ~ In ModelSettled events -> isLoading st = true ->
  emotionHistory (fst (run events st c)) = emotionHistory st /\
  students (fst (run events st c)) = students st /\
  snd (run events st c) = c.
Proof.
  induction events as [|e events IH]; intros st c Hno Hl; [auto|].
  cbn [run]. unfold bind.
  assert (Hf : fires e st = false).
  { destruct e; simpl; auto. now rewrite Hl, andb_false_r. }
  destruct (step_idle e st c Hf) as (Hh & Hs & Hc & _).
  assert (Hl' : isLoading (fst (step e st c)) = true).
  { destruct e as [| |f].
    - exact Hl.
    - exfalso. apply Hno. now left.
    - simpl. unfold tick. rewrite Hl, andb_false_r. exact Hl. }
  destruct (step e st c) as [st1 c1]. cbn [fst snd] in *. subst c1.
  rewrite <- Hh, <- Hs. apply IH; auto. intros Hin. apply Hno. now right.
Qed.

Lemma run_inactive events : forall st c,
  ~ In ToggleTracking events -> isActive st = false ->
  emotionHistory (fst (run events st c)) = emotionHistory st /\
  students (fst (run events st c)) = students st /\
  snd (run events st c) = c.
Proof.
  induction events as [|e events IH]; intros st c Hno Ha; [auto|].
  cbn [run]. unfold bind.
  assert (Hf : fires e st = false).
  { destruct e; simpl; auto. now rewrite Ha. }
  destruct (step_idle e st c Hf) as (Hh & Hs & Hc & _).
  assert (Ha' : isActive (fst (step e st c)) = false).
  { destruct e as [| |f].
    - exfalso. apply Hno. now left.
    - exact Ha.
    - simpl. unfold tick. rewrite Ha. exact Ha. }
  destruct (step e st c) as [st1 c1]. cbn [fst snd] in *. subst c1.
  rewrite <- Hh, <- Hs. apply IH; auto. intros Hin. apply Hno. now right.
Qed.

(** X7.  Nothing is detected before tracking has started: as long as the
    model has not settled, or tracking has never been switched on, the store
    and the history of a fresh session are empty and neither the random
    source nor the clock has been called, whatever else has happened. *)
Theorem no_detection_before_start events :
  ~ In ModelSettled events \/ ~ In ToggleTracking events ->
  emotionHistory (session events) = [] /\
  students (session events) = [] /\
  session_calls events = no_calls.
Proof.
  unfold session, session_calls. intros [Hno|Hno].
  - apply (run_loading events initial no_calls Hno). reflexivity.
  - apply (run_inactive events initial no_calls Hno). reflexivity.
Qed.

(** *** How the history grows *)

Lemma delivered_length e st c :
  List.length (delivered e st c) = if fires e st then numStudents c else 0%nat.
Proof.
  destruct (fires e st) eqn:Hf.
  - destruct (step_fires e st c Hf) as [_ [f ->]]. apply batch_length.
  - now destruct (step_idle e st c Hf) as (_ & _ & _ & ->).
Qed.

Lemma step_history_length e st c :
  List.length (emotionHistory (fst (step e st c))) =
  (List.length (emotionHistory st) + List.length (delivered e st c))%nat.
Proof. now rewrite step_history, length_app, stamp_length. Qed.

Lemma step_random_calls e st c :
  random_calls (snd (step e st c)) =
  if fires e st then (random_calls c + 1 + 6 * numStudents c)%nat
  else random_calls c.
Proof.
  destruct (fires e st) eqn:Hf.
  - destruct (step_fires e st c Hf) as [-> _].
    rewrite handleStudentsDetected_eq. simpl. lia.
  - now destruct (step_idle e st c Hf) as (_ & _ & -> & _).
Qed.

Lemma run_history_length events : forall st c,
  draws_in_range ->
  (List.length (emotionHistory st) + deliveries events st c <=
     List.length (emotionHistory (fst (run events st c))) /\
   List.length (emotionHistory (fst (run events st c))) <=
     List.length (emotionHistory st) + 3 * deliveries events st c)%nat.
Proof.
  induction events as [|e events IH]; intros st c Hr.
  - simpl. lia.
  - cbn [run deliveries]. unfold bind.
    pose proof (step_history_length e st c) as Hlen.
    rewrite delivered_length in Hlen.
    pose proof (numStudents_range c Hr) as Hn.
    destruct (step e st c) as [st1 c1] eqn:Hs. cbn [fst snd] in *.
    specialize (IH st1 c1 Hr).
    destruct (fires e st); lia.
Qed.

(** X8.  With draws in [0,1) every delivery adds between one and three
    samples to the history, so after [n] deliveries the history holds between
    [n] and [3 n] samples; the charts-and-insights block, shown from the
    sixth sample on, is therefore absent after at most one delivery and
    present after six. *)
Theorem history_length_bounds events :
  draws_in_range ->
  (session_deliveries events <= List.length (emotionHistory (session events)) /\
   List.length (emotionHistory (session events)) <= 3 * session_deliveries events)%nat /\
  ((session_deliveries events <= 1)%nat ->
   charts_and_insights (render (session events)) = None) /\
  ((6 <= session_deliveries events)%nat ->
   charts_and_insights (render (session events)) =
   Some (emotionHistory (session events))).
Proof.
  intros Hr.
  pose proof (run_history_length events initial no_calls Hr) as [Hlo Hhi].
  fold (session events) in Hlo, Hhi. fold (session_deliveries events) in Hlo, Hhi.
  cbn [initial emotionHistory List.length] in Hlo, Hhi.
  split; [lia|]. unfold render. cbn [charts_and_insights].
  split; intros Hd.
  - destruct (Nat.ltb_spec 5 (List.length (emotionHistory (session events))));
      [lia|reflexivity].
  - destruct (Nat.ltb_spec 5 (List.length (emotionHistory (session events))));
      [reflexivity|lia].
Qed.

Lemma run_calls events : forall st c,
  (now_calls (snd (run events st c)) + 2 * List.length (emotionHistory st) =
     now_calls c + 2 * List.length (emotionHistory (fst (run events st c))) /\
   random_calls (snd (run events st c)) + 6 * List.length (emotionHistory st) =
     random_calls c + deliveries events st c +
     6 * List.length (emotionHistory (fst (run events st c))))%nat.
Proof.
  induction events as [|e events IH]; intros st c.
  - simpl. lia.
  - cbn [run deliveries]. unfold bind.
    pose proof (step_history_length e st c) as Hlen.
    pose proof (step_now_calls e st c) as Hnow.
    pose proof (step_random_calls e st c) as Hrand.
    rewrite delivered_length in Hlen, Hnow.
    destruct (step e st c) as [st1 c1] eqn:Hs. cbn [fst snd] in *.
    specialize (IH st1 c1).
    destruct (fires e st); lia.
Qed.

(** X9.  The calls of a session are accounted for by its data: the clock has
    been read exactly twice for each sample of the history (once for the
    student's lastSeen, once for the sample's timestamp), and the random
    source has been called once for each delivery plus six times for each
    sample. *)
Theorem session_call_accounting events :
  now_calls (session_calls events) =
    (2 * List.length (emotionHistory (session events)))%nat /\
  random_calls (session_calls events) =
    (session_deliveries events +
     6 * List.length (emotionHistory (session events)))%nat.
Proof.
  pose proof (run_calls events initial no_calls) as [Hn Hr].
  fold (session events) in Hn, Hr. fold (session_calls events) in Hn, Hr.
  fold (session_deliveries events) in Hr.
  cbn [initial emotionHistory List.length no_calls now_calls random_calls] in Hn, Hr.
  lia.
Qed.

(** *** The store and the welcome message *)

(** X10.  With draws in [0,1) the store of a session is empty exactly when
    its history is, and never holds more than three students: the page shows
    the getting-started message exactly when it shows no student card, and at
    most three cards. *)
Theorem welcome_iff_no_student events :
  draws_in_range ->
  (getting_started (render (session events)) = true <->
   student_cards (render (session events)) = []) /\
  (List.length (student_cards (render (session events))) <= 3)%nat.
Proof.
  intros Hr. unfold render. cbn [getting_started student_cards].
  rewrite Nat.eqb_eq, length_zero_iff_nil.
  assert (H : (emotionHistory (session events) = [] <->
               students (session events) = []) /\
              (List.length (students (session events)) <= 3)%nat).
  { unfold session.
    apply (run_invariant (fun st _ =>
      (emotionHistory st = [] <-> students st = []) /\
      (List.length (students st) <= 3)%nat)).
    - intros e st c [Hiff Hle]. rewrite step_history, step_students.
      pose proof (delivered_length e st c) as Hlen.
      pose proof (numStudents_range c Hr) as Hn.
      pose proof (stamp_length (delivered e st c) (after_detection c)) as Hst.
      destruct (fires e st).
      + split; [|lia]. split; intros H.
        * apply app_eq_nil in H as [_ H]. rewrite H in Hst. simpl in Hst. lia.
        * rewrite H in Hlen. simpl in Hlen. lia.
      + apply length_zero_iff_nil in Hlen. rewrite Hlen. cbn [stamp].
        rewrite app_nil_r. now split.
    - split; [now split|simpl; lia]. }
  exact H.
Qed.

(** *** The blocks of the page *)

(** X11.  What the page has begun to show of the history it keeps showing:
    once the metrics overview is mounted it stays mounted after any further
    events, so does the charts-and-insights block, and the getting-started
    message never comes back. *)
Theorem page_blocks_never_vanish events more :
  (metrics_section (render (session events)) <> None ->
   metrics_section (render (session (events ++ more))) <> None) /\
  (charts_and_insights (render (session events)) <> None ->
   charts_and_insights (render (session (events ++ more))) <> None) /\
  (getting_started (render (session events)) = false ->
   getting_started (render (session (events ++ more))) = false).
Proof.
  destruct (session_history_grows events more) as [later Hg].
  assert (Hlen : (List.length (emotionHistory (session events)) <=
                  List.length (emotionHistory (session (events ++ more))))%nat)
    by (rewrite Hg, length_app; lia).
  unfold render. cbn [metrics_section charts_and_insights getting_started].
  repeat split.
  - destruct (Nat.ltb_spec 0 (List.length (emotionHistory (session events))));
      [intros _|congruence].
    destruct (Nat.ltb_spec 0 (List.length (emotionHistory (session (events ++ more)))));
      [discriminate|lia].
  - destruct (Nat.ltb_spec 5 (List.length (emotionHistory (session events))));
      [intros _|congruence].
    destruct (Nat.ltb_spec 5 (List.length (emotionHistory (session (events ++ more)))));
      [discriminate|lia].
  - rewrite !Nat.eqb_neq. lia.
Qed.

(** *** lastSeen and the timestamps *)

Lemma detect_one_lastSeen f i c :
  StudentData.lastSeen (fst (detect_one f i c)) = Date_now_at host (now_calls c).
Proof. reflexivity. Qed.

Lemma batch_lastSeen f n : forall i c,
  map StudentData.lastSeen (batch f n i c) =
  map (Date_now_at host) (seq (now_calls c) n).
Proof.
  induction n as [|n IH]; intros i c; [reflexivity|].
  cbn [batch map seq]. rewrite IH, detect_one_lastSeen.
  cbn [advance now_calls]. now rewrite Nat.add_1_r.
Qed.

Lemma stamp_not_before detected : forall c0 c1,
  clock_monotone ->
  map StudentData.lastSeen detected =
    map (Date_now_at host) (seq (now_calls c0) (List.length detected)) ->
  (now_calls c0 <= now_calls c1)%nat ->
  Forall2 (fun s e => (StudentData.lastSeen s <= EmotionData.timestamp e)%Z)
          detected (stamp detected c1).
Proof.
  induction detected as [|s rest IH]; intros c0 c1 Hm Hseen Hle;
    cbn [stamp]; constructor.
  - cbn [map List.length seq] in Hseen. injection Hseen as Hs _.
    rewrite Hs. cbn. now apply Hm.
  - apply (IH (advance c0 0 1) (advance c1 0 1) Hm).
    + cbn [map List.length seq] in Hseen. injection Hseen as _ Hrest.
      cbn [advance now_calls]. now rewrite Nat.add_1_r.
    + cbn [advance now_calls]. lia.
Qed.

(** X12.  When the clock never runs backwards, the sample that a delivery
    appends to the history for a student is stamped no earlier than that
    student's lastSeen. *)
Theorem sample_not_before_lastSeen events e :
  clock_monotone ->
  fires e (session events) = true ->
  exists appended,
    emotionHistory (session (events ++ [e])) =
      emotionHistory (session events) ++ appended /\
    Forall2 (fun s smp => (StudentData.lastSeen s <= EmotionData.timestamp smp)%Z)
            (students (session (events ++ [e]))) appended.
Proof.
  intros Hm Hf. rewrite session_snoc, step_history, step_students, Hf.
  eexists. split; [reflexivity|].
  destruct (step_fires e (session events) (session_calls events) Hf)
    as [_ [f Hd]].
  apply (stamp_not_before _ (advance (session_calls events) 1 0) _ Hm).
  - rewrite Hd at 1. rewrite batch_lastSeen. now rewrite Hd, batch_length.
  - unfold after_detection. cbn [advance now_calls]. lia.
Qed.

(** *** The names, and the store against the history *)

Lemma batch_names f n : forall i c,
  map StudentData.name (batch f n i c) = map studentName (seq i n).
Proof.
  induction n as [|n IH]; intros i c; [reflexivity|].
  cbn [batch map seq]. now rewrite IH.
Qed.

Lemma studentName_inj i j : studentName i = studentName j -> i = j.
Proof.
  unfold studentName. cbn [String.append]. intros H.
  injection H as H. apply decimal_inj in H. lia.
Qed.

(** X13.  In every state of the store the student at position [i] is named
    [Student (i+1)] and has the id [student-(i+1)], so the name shown on a
    card and the id carry the same number, and the names are pairwise
    distinct. *)
Theorem store_names_follow_ids events :
  (forall i s,
     nth_error (students (session events)) i = Some s ->
     StudentData.name s = ("Student " ++ decimal (i + 1))%string /\
     StudentData.id s = ("student-" ++ decimal (i + 1))%string) /\
  NoDup (map StudentData.name (students (session events))).
Proof.
  destruct (session_store events) as (f & n & c & Hst).
  split.
  - intros i s Hi. rewrite Hst in Hi.
    pose proof (map_nth_error StudentData.name _ _ Hi) as Hn.
    pose proof (map_nth_error StudentData.id _ _ Hi) as Hd.
    rewrite batch_names, nth_error_map, nth_error_seq in Hn.
    rewrite batch_ids, nth_error_map, nth_error_seq in Hd.
    destruct (i <? n)%nat; simpl in Hn, Hd; [|discriminate].
    injection Hn as Hn. injection Hd as Hd. now split.
  - rewrite Hst, batch_names.
    apply Injective_map_NoDup; [|apply seq_NoDup].
    intros a b. apply studentName_inj.
Qed.

(** X14.  In every state of a session the students of the store are mirrored
    by the end of the history: the last samples of the history, one for each
    student and in the same order, carry the students' currentEmotion,
    confidence, engagement and bounding box. *)
Theorem store_mirrored_by_history_tail events :
  exists earlier latest,
    emotionHistory (session events) = earlier ++ latest /\
    Forall2 sample_of (students (session events)) latest.
Proof.
  unfold session.
  apply (run_invariant (fun st _ => exists earlier latest,
    emotionHistory st = earlier ++ latest /\
    Forall2 sample_of (students st) latest)).
  - intros e st c (earlier & latest & Hh & Hs).
    rewrite step_history, step_students.
    destruct (fires e st) eqn:Hf.
    + exists (emotionHistory st), (stamp (delivered e st c) (after_detection c)).
      split; [reflexivity|apply stamp_samples].
    + destruct (step_idle e st c Hf) as (_ & _ & _ & ->). cbn [stamp].
      rewrite app_nil_r. eauto.
  - exists [], []. split; [reflexivity|constructor].
Qed.

End Session.

(** ** The properties on concrete sessions *)

Example steady_one_frame :
  students (session steady_host sample_table one_frame) = [steady_student 1700000000000].
Proof. reflexivity. Qed.

Example steady_two_frames :
  students (session steady_host sample_table two_frames) = [steady_student 1700000002000].
Proof. reflexivity. Qed.

Example crowd_store_sizes :
  map (fun events => List.length (students (session crowd_host sample_table events)))
      [one_frame; two_frames; three_frames] = [3; 1; 3]%nat.
Proof. reflexivity. Qed.

Example weighted_emotion_buckets :
  map weighted_emotion [0; 0.39; 0.4; 0.69; 0.7; 0.8; 0.85; 0.9; 0.95; 0.999; 1] =
  map Some [happy; happy; neutral; neutral; sad; angry; surprised; fearful;
            disgust; disgust; neutral].
Proof. reflexivity. Qed.

(** C1, the claim as stated fails.  With [steady_host] the one subject of the
    first frame is detected again in the second frame with the very same
    bounding box (it has moved by nothing, which is below every positive
    threshold); its id is kept, but its history has length 0 after both
    frames instead of growing by one. *)
Lemma identity_continuity_counterexample :
  ~ (forall s1 s2,
       In s1 (students (session steady_host sample_table one_frame)) ->
       In s2 (students (session steady_host sample_table two_frames)) ->
       StudentData.boundingBox s2 = StudentData.boundingBox s1 ->
       StudentData.id s2 = StudentData.id s1 /\
       List.length (StudentData.history s2) =
         S (List.length (StudentData.history s1))).
Proof.
  intros H.
  destruct (H (steady_student 1700000000000) (steady_student 1700000002000)) as [_ Hlen];
    [left; reflexivity|left; reflexivity|reflexivity|discriminate Hlen].
Qed.

Lemma identity_by_batch_position_witness :
  nth_error (students (session steady_host sample_table one_frame)) 0 =
    Some (steady_student 1700000000000) /\
  nth_error (students (session steady_host sample_table
                         (one_frame ++ [IntervalElapsed camera]))) 0 =
    Some (steady_student 1700000002000) /\
  fires (IntervalElapsed camera) (session steady_host sample_table one_frame) = true /\
  StudentData.id (steady_student 1700000000000) = studentId 0 /\
  StudentData.id (steady_student 1700000002000) =
    StudentData.id (steady_student 1700000000000) /\
  List.length (StudentData.history (steady_student 1700000000000)) = 0%nat /\
  List.length (StudentData.history (steady_student 1700000002000)) = 0%nat /\
  List.length (students (session steady_host sample_table
                           (one_frame ++ [IntervalElapsed camera]))) =
  List.length (delivered steady_host sample_table (IntervalElapsed camera)
                 (session steady_host sample_table one_frame)
                 (session_calls steady_host sample_table one_frame)).
Proof.
  split; [reflexivity|]. split; [reflexivity|]. split; [reflexivity|].
  destruct (identity_by_batch_position steady_host sample_table one_frame
              (IntervalElapsed camera) 0
              (steady_student 1700000000000) (steady_student 1700000002000)
              eq_refl eq_refl) as (H1 & H2 & H3 & H4 & H5).
  exact (conj H1 (conj H2 (conj H3 (conj H4 (H5 eq_refl))))).
Defined.

(** C2, the claim as stated fails.  With [crowd_host] the first frame shows
    three subjects, the second frame, two seconds later, one, and the third
    frame three again.  Neither do the subjects of the first frame all stay
    in the store after the second frame (which the claim requires for every
    timeout of two seconds or more), nor do the detections of the third frame
    get ids other than those of the dropped subjects (which the claim
    requires once a subject has been removed). *)
Lemma timeout_eviction_counterexample :
  ~ ((forall s,
        In s (students (session crowd_host sample_table one_frame)) ->
        In (StudentData.id s)
           (map StudentData.id (students (session crowd_host sample_table two_frames)))) \/
     (forall s s3,
        In s (students (session crowd_host sample_table one_frame)) ->
        ~ In (StudentData.id s)
             (map StudentData.id (students (session crowd_host sample_table two_frames))) ->
        In s3 (students (session crowd_host sample_table three_frames)) ->
        StudentData.id s3 <> StudentData.id s)).
Proof.
  assert (H1 : exists s,
    nth_error (students (session crowd_host sample_table one_frame)) 2 = Some s /\
    StudentData.id s = "student-3"%string).
  { vm_compute. eexists. split; reflexivity. }
  assert (H3 : exists s,
    nth_error (students (session crowd_host sample_table three_frames)) 2 = Some s /\
    StudentData.id s = "student-3"%string).
  { vm_compute. eexists. split; reflexivity. }
  assert (H2 : map StudentData.id
                 (students (session crowd_host sample_table two_frames)) =
               ["student-1"%string]) by reflexivity.
  destruct H1 as (s & Hs & Hid), H3 as (s3 & Hs3 & Hid3).
  apply nth_error_In in Hs, Hs3.
  assert (Hout : ~ In (StudentData.id s)
     (map StudentData.id (students (session crowd_host sample_table two_frames)))).
  { rewrite H2, Hid. intros [Heq|[]]. discriminate Heq. }
  intros [Hstay|Hnew].
  - apply Hout, Hstay, Hs.
  - apply (Hnew s s3 Hs Hout Hs3). congruence.
Qed.

Lemma store_is_latest_batch_witness :
  fires (IntervalElapsed camera) (session crowd_host sample_table one_frame) = true /\
  students (session crowd_host sample_table (one_frame ++ [IntervalElapsed camera])) =
    delivered crowd_host sample_table (IntervalElapsed camera)
      (session crowd_host sample_table one_frame)
      (session_calls crowd_host sample_table one_frame) /\
  fires ToggleTracking (session crowd_host sample_table one_frame) = false /\
  students (session crowd_host sample_table (one_frame ++ [ToggleTracking])) =
    students (session crowd_host sample_table one_frame).
Proof.
  split; [reflexivity|]. split.
  - apply (proj1 (store_is_latest_batch crowd_host sample_table one_frame
                    (IntervalElapsed camera))). reflexivity.
  - split; [reflexivity|].
    apply (proj2 (store_is_latest_batch crowd_host sample_table one_frame
                    ToggleTracking)). reflexivity.
Defined.

(** C3, the claim as stated fails.  The subject that the first frame of
    [steady_host] creates has an empty history: its length is 0, not 1, and
    it holds no most recent sample for the current fields to agree with. *)
Lemma seeded_history_counterexample :
  ~ (forall s,
       In s (students (session steady_host sample_table one_frame)) ->
       List.length (StudentData.history s) = 1%nat /\
       exists e, last_sample (StudentData.history s) = Some e /\ sample_of s e).
Proof.
  intros H. destruct (H (steady_student 1700000000000)) as [Hlen _];
    [left; reflexivity|discriminate Hlen].
Qed.

Lemma subject_fields_match_logged_sample_witness :
  fires (IntervalElapsed camera) (session steady_host sample_table one_frame) = true /\
  exists appended,
    emotionHistory (session steady_host sample_table (one_frame ++ [IntervalElapsed camera])) =
      emotionHistory (session steady_host sample_table one_frame) ++ appended /\
    Forall2 sample_of
      (students (session steady_host sample_table (one_frame ++ [IntervalElapsed camera])))
      appended.
Proof.
  split; [reflexivity|].
  apply (proj2 (subject_fields_match_logged_sample steady_host sample_table
                  one_frame (IntervalElapsed camera))).
  reflexivity.
Defined.

Lemma history_within_retention_cap_witness :
  In (steady_student 1700000002000) (students (session steady_host sample_table two_frames)) /\
  (List.length (StudentData.history (steady_student 1700000002000)) <= 50)%nat.
Proof.
  assert (H : In (steady_student 1700000002000)
                 (students (session steady_host sample_table two_frames)))
    by (left; reflexivity).
  split; [exact H|].
  exact (history_within_retention_cap steady_host sample_table 50 two_frames
           (steady_student 1700000002000) H).
Defined.
(** C5, the claim as stated fails.  [Date.now()] is the wall clock; when it
    is set back between two frames, as with [set_back_host], the sample of
    the second frame is appended after the sample of the first with a smaller
    timestamp, so the timestamps of the history are not non-decreasing in
    append order. *)
Lemma timestamp_order_counterexample :
  map EmotionData.timestamp
      (emotionHistory (session set_back_host sample_table two_frames)) =
    [1700000000000; 1699999995000]%Z /\
  ~ StronglySorted Z.le
      (map EmotionData.timestamp
           (emotionHistory (session set_back_host sample_table two_frames))).
Proof.
  assert (H : map EmotionData.timestamp
                (emotionHistory (session set_back_host sample_table two_frames)) =
              [1700000000000; 1699999995000]%Z) by reflexivity.
  split; [exact H|]. rewrite H. intros Hs.
  apply StronglySorted_inv in Hs as [_ Hall].
  apply Forall_inv in Hall. lia.
Qed.

Lemma emotion_history_append_only_witness :
  (forall i j, (i <= j)%nat ->
     (Date_now_at steady_host i <= Date_now_at steady_host j)%Z) /\
  StronglySorted Z.le
    (map EmotionData.timestamp
         (emotionHistory (session steady_host sample_table two_frames))).
Proof.
  assert (H : forall i j, (i <= j)%nat ->
                (Date_now_at steady_host i <= Date_now_at steady_host j)%Z)
    by (intros i j Hij; unfold steady_host, Date_now_at; lia).
  split; [exact H|].
  exact (proj2 (proj2 (emotion_history_append_only steady_host sample_table
                         two_frames ToggleTracking)) H).
Defined.

Example steady_two_frames_timestamps :
  map EmotionData.timestamp
      (emotionHistory (session steady_host sample_table two_frames)) =
  [1700000001000; 1700000003000]%Z.
Proof. reflexivity. Qed.

(** C6, the claim as stated fails.  When an empty batch reaches a session
    whose store and history are empty, the page mounts neither the metrics
    overview nor the charts-and-insights block, so no aggregate metrics and
    no finding are produced. *)
Lemma empty_store_metrics_counterexample :
  ~ ((exists data,
        metrics_section
          (render (fst (handleStudentsDetected steady_host [] initial no_calls))) =
        Some data) \/
     (exists data,
        charts_and_insights
          (render (fst (handleStudentsDetected steady_host [] initial no_calls))) =
        Some data)).
Proof. intros [[data H]|[data H]]; discriminate H. Qed.

Lemma empty_session_view_witness :
  emotionHistory initial = [] /\ students initial = [] /\
  render (fst (handleStudentsDetected steady_host [] initial no_calls)) =
    {| count_badge := None; metrics_section := None; student_cards := [];
       charts_and_insights := None; getting_started := true |}.
Proof.
  split; [reflexivity|]. split; [reflexivity|].
  exact (proj2 (proj2 (proj2
    (empty_session_view steady_host initial no_calls eq_refl eq_refl)))).
Defined.

Example steady_two_frames_history :
  emotionHistory (session steady_host sample_table two_frames) =
  [steady_sample 1700000001000; steady_sample 1700000003000].
Proof. reflexivity. Qed.

Lemma session_engagement_classified_witness :
  In (steady_sample 1700000001000)
     (emotionHistory (session steady_host sample_table two_frames)) /\
  In (steady_sample 1700000003000)
     (emotionHistory (session steady_host sample_table two_frames)) /\
  EmotionData.emotion (steady_sample 1700000001000) =
    EmotionData.emotion (steady_sample 1700000003000) /\
  EmotionData.engagement (steady_sample 1700000001000) =
    EmotionData.engagement (steady_sample 1700000003000).
Proof.
  assert (Ha : In (steady_sample 1700000001000)
                  (emotionHistory (session steady_host sample_table two_frames)))
    by (left; reflexivity).
  assert (Hb : In (steady_sample 1700000003000)
                  (emotionHistory (session steady_host sample_table two_frames)))
    by (right; left; reflexivity).
  split; [exact Ha|]. split; [exact Hb|]. split; [reflexivity|].
  exact (proj2 (session_engagement_classified steady_host sample_table two_frames)
           _ _ Ha Hb eq_refl).
Defined.

Lemma confidence_in_unit_interval_witness :
  (forall k, 0 <= Math_random_at steady_host k /\ Math_random_at steady_host k < 1) /\
  detectStudents steady_host sample_table camera no_calls =
    (Some [steady_student 1700000000000], {| random_calls := 7; now_calls := 1 |}) /\
  Forall (fun s => 0 <= StudentData.confidence s /\ StudentData.confidence s <= 1)
         [steady_student 1700000000000].
Proof.
  assert (H : forall k, 0 <= Math_random_at steady_host k /\
                        Math_random_at steady_host k < 1)
    by (intros k; unfold steady_host, Math_random_at; split; lra).
  split; [exact H|]. split; [reflexivity|].
  exact (confidence_in_unit_interval steady_host sample_table camera no_calls
           [steady_student 1700000000000] {| random_calls := 7; now_calls := 1 |}
           H eq_refl).
Defined.

Lemma weighted_emotion_in_enumeration_witness :
  (List.length weights = List.length weights /\
   exists label,
     weighted_loop Qltb Qminus weights 0 1 (Some neutral) = Some label /\
     In label emotions /\
     (bucket_selected Qltb Qminus weights 1 = false -> label = neutral)) /\
  (detectStudents steady_host sample_table camera no_calls =
     (Some [steady_student 1700000000000], {| random_calls := 7; now_calls := 1 |}) /\
   Forall (fun s => In (StudentData.currentEmotion s) emotions /\
                    exists k,
                      weighted_emotion (Math_random_at steady_host k) =
                      Some (StudentData.currentEmotion s))
          [steady_student 1700000000000]).
Proof.
  destruct (weighted_emotion_in_enumeration steady_host sample_table)
    as (Hany & _ & Hemitted).
  split.
  - split; [reflexivity|]. exact (Hany Q Qltb Qminus weights 1 eq_refl).
  - split; [reflexivity|].
    exact (Hemitted camera no_calls [steady_student 1700000000000]
             {| random_calls := 7; now_calls := 1 |} eq_refl).
Defined.

(** A draw of exactly one, which [Math.random()] never returns, is the least
    draw for which the exact loop takes no bucket and keeps neutral. *)
Example weighted_emotion_fallback :
  bucket_selected Qltb Qminus weights 1 = false /\
  weighted_emotion 1 = Some neutral.
Proof. split; reflexivity. Qed.

(** ** The further properties on concrete sessions *)

Lemma steady_draws_in_range : draws_in_range steady_host.
Proof. intros k. unfold steady_host, Math_random_at. split; lra. Qed.

Lemma steady_clock_monotone : clock_monotone steady_host.
Proof. intros i j Hij. unfold steady_host, Date_now_at. lia. Qed.

Lemma detectStudents_count_witness :
  draws_in_range steady_host /\ dom_ready camera = true /\
  exists detected,
    detectStudents steady_host sample_table camera no_calls =
      (Some detected,
       advance no_calls (1 + 6 * List.length detected) (List.length detected)) /\
    (1 <= List.length detected <= 3)%nat.
Proof.
  split; [exact steady_draws_in_range|]. split; [reflexivity|].
  exact (proj1 (detectStudents_count steady_host sample_table camera no_calls
                  steady_draws_in_range) eq_refl).
Defined.

Lemma boxes_within_frame_witness :
  draws_in_range steady_host /\
  250 <= videoWidth camera /\ 300 <= videoHeight camera /\
  detectStudents steady_host sample_table camera no_calls =
    (Some [steady_student 1700000000000], {| random_calls := 7; now_calls := 1 |}) /\
  Forall (fun s =>
            (150 <= width (StudentData.boundingBox s) /\
             width (StudentData.boundingBox s) <= 250) /\
            (180 <= height (StudentData.boundingBox s) /\
             height (StudentData.boundingBox s) <= 300) /\
            within_frame camera (StudentData.boundingBox s))
         [steady_student 1700000000000].
Proof.
  assert (HW : 250 <= videoWidth camera) by (unfold camera, videoWidth; lra).
  assert (HH : 300 <= videoHeight camera) by (unfold camera, videoHeight; lra).
  split; [exact steady_draws_in_range|]. split; [exact HW|]. split; [exact HH|].
  split; [reflexivity|].
  exact (boxes_within_frame steady_host sample_table camera no_calls
           [steady_student 1700000000000] {| random_calls := 7; now_calls := 1 |}
           steady_draws_in_range HW HH eq_refl).
Defined.

Lemma boxes_overflow_small_frame_witness :
  draws_in_range steady_host /\
  detectStudents steady_host sample_table unsized_camera no_calls =
    (Some (batch steady_host sample_table unsized_camera 1 0 (advance no_calls 1 0)),
     {| random_calls := 7; now_calls := 1 |}) /\
  (videoWidth unsized_camera < 150 /\
   Forall (fun s =>
             x (StudentData.boundingBox s) <= 0 /\
             videoWidth unsized_camera <
               x (StudentData.boundingBox s) + width (StudentData.boundingBox s))
          (batch steady_host sample_table unsized_camera 1 0 (advance no_calls 1 0))) /\
  (videoHeight unsized_camera < 180 /\
   Forall (fun s =>
             y (StudentData.boundingBox s) <= 0 /\
             videoHeight unsized_camera <
               y (StudentData.boundingBox s) + height (StudentData.boundingBox s))
          (batch steady_host sample_table unsized_camera 1 0 (advance no_calls 1 0))).
Proof.
  assert (HW : videoWidth unsized_camera < 150)
    by (unfold unsized_camera, videoWidth; lra).
  assert (HH : videoHeight unsized_camera < 180)
    by (unfold unsized_camera, videoHeight; lra).
  destruct (boxes_overflow_small_frame steady_host sample_table unsized_camera
              no_calls _ {| random_calls := 7; now_calls := 1 |}
              steady_draws_in_range eq_refl) as [Hwide Hhigh].
  split; [exact steady_draws_in_range|]. split; [reflexivity|].
  split; [exact (conj HW (Hwide HW))|exact (conj HH (Hhigh HH))].
Defined.

Lemma weighted_emotion_thresholds_witness :
  (0 <= 0.2 /\ 0.2 < 1 /\ 0.2 < 0.4 /\ weighted_emotion 0.2 = Some happy) /\
  (0 <= 0.5 /\ 0.5 < 1 /\ 0.4 <= 0.5 /\ 0.5 < 0.7 /\
   weighted_emotion 0.5 = Some neutral) /\
  (0 <= 0.75 /\ 0.75 < 1 /\ 0.7 <= 0.75 /\ 0.75 < 0.8 /\
   weighted_emotion 0.75 = Some sad) /\
  (0 <= 0.82 /\ 0.82 < 1 /\ 0.8 <= 0.82 /\ 0.82 < 0.85 /\
   weighted_emotion 0.82 = Some angry) /\
  (0 <= 0.87 /\ 0.87 < 1 /\ 0.85 <= 0.87 /\ 0.87 < 0.9 /\
   weighted_emotion 0.87 = Some surprised) /\
  (0 <= 0.92 /\ 0.92 < 1 /\ 0.9 <= 0.92 /\ 0.92 < 0.95 /\
   weighted_emotion 0.92 = Some fearful) /\
  (0 <= 0.97 /\ 0.97 < 1 /\ 0.95 <= 0.97 /\ weighted_emotion 0.97 = Some disgust).
Proof.
  assert (L1 : 0 <= 0.2) by lra. assert (U1 : 0.2 < 1) by lra.
  assert (L2 : 0 <= 0.5) by lra. assert (U2 : 0.5 < 1) by lra.
  assert (L3 : 0 <= 0.75) by lra. assert (U3 : 0.75 < 1) by lra.
  assert (L4 : 0 <= 0.82) by lra. assert (U4 : 0.82 < 1) by lra.
  assert (L5 : 0 <= 0.87) by lra. assert (U5 : 0.87 < 1) by lra.
  assert (L6 : 0 <= 0.92) by lra. assert (U6 : 0.92 < 1) by lra.
  assert (L7 : 0 <= 0.97) by lra. assert (U7 : 0.97 < 1) by lra.
  assert (A1 : 0.2 < 0.4) by lra.
  assert (A2 : 0.4 <= 0.5) by lra. assert (B2 : 0.5 < 0.7) by lra.
  assert (A3 : 0.7 <= 0.75) by lra. assert (B3 : 0.75 < 0.8) by lra.
  assert (A4 : 0.8 <= 0.82) by lra. assert (B4 : 0.82 < 0.85) by lra.
  assert (A5 : 0.85 <= 0.87) by lra. assert (B5 : 0.87 < 0.9) by lra.
  assert (A6 : 0.9 <= 0.92) by lra. assert (B6 : 0.92 < 0.95) by lra.
  assert (A7 : 0.95 <= 0.97) by lra.
  pose proof (weighted_emotion_thresholds 0.2 L1 U1) as (T1 & _).
  pose proof (weighted_emotion_thresholds 0.5 L2 U2) as (_ & T2 & _).
  pose proof (weighted_emotion_thresholds 0.75 L3 U3) as (_ & _ & T3 & _).
  pose proof (weighted_emotion_thresholds 0.82 L4 U4) as (_ & _ & _ & T4 & _).
  pose proof (weighted_emotion_thresholds 0.87 L5 U5) as (_ & _ & _ & _ & T5 & _).
  pose proof (weighted_emotion_thresholds 0.92 L6 U6) as (_ & _ & _ & _ & _ & T6 & _).
  pose proof (weighted_emotion_thresholds 0.97 L7 U7) as (_ & _ & _ & _ & _ & _ & T7).
  exact (conj (conj L1 (conj U1 (conj A1 (T1 A1))))
        (conj (conj L2 (conj U2 (conj A2 (conj B2 (T2 A2 B2)))))
        (conj (conj L3 (conj U3 (conj A3 (conj B3 (T3 A3 B3)))))
        (conj (conj L4 (conj U4 (conj A4 (conj B4 (T4 A4 B4)))))
        (conj (conj L5 (conj U5 (conj A5 (conj B5 (T5 A5 B5)))))
        (conj (conj L6 (conj U6 (conj A6 (conj B6 (T6 A6 B6)))))
              (conj L7 (conj U7 (conj A7 (T7 A7)))))))))).
Defined.


Lemma pause_resume_preserves_session_witness :
  (isActive initial && negb (isLoading initial) = false /\
   run steady_host sample_table (map IntervalElapsed [camera; unsized_camera])
       initial no_calls = (initial, no_calls)) /\
  (isActive (session steady_host sample_table one_frame) = true /\
   run steady_host sample_table
       (ToggleTracking :: map IntervalElapsed [camera; unsized_camera] ++ [ToggleTracking])
       (session steady_host sample_table one_frame)
       (session_calls steady_host sample_table one_frame) =
     (session steady_host sample_table one_frame,
      session_calls steady_host sample_table one_frame)).
Proof.
  split.
  - split; [reflexivity|].
    exact (proj1 (pause_resume_preserves_session steady_host sample_table
                    [camera; unsized_camera] initial no_calls) eq_refl).
  - split; [reflexivity|].
    exact (proj2 (pause_resume_preserves_session steady_host sample_table
                    [camera; unsized_camera]
                    (session steady_host sample_table one_frame)
                    (session_calls steady_host sample_table one_frame)) eq_refl).
Defined.

Lemma no_detection_before_start_witness :
  (~ In ModelSettled [ToggleTracking; IntervalElapsed camera] \/
   ~ In ToggleTracking [ToggleTracking; IntervalElapsed camera]) /\
  emotionHistory
    (session steady_host sample_table [ToggleTracking; IntervalElapsed camera]) = [] /\
  students
    (session steady_host sample_table [ToggleTracking; IntervalElapsed camera]) = [] /\
  session_calls steady_host sample_table [ToggleTracking; IntervalElapsed camera] =
    no_calls.
Proof.
  assert (H : ~ In ModelSettled [ToggleTracking; IntervalElapsed camera] \/
              ~ In ToggleTracking [ToggleTracking; IntervalElapsed camera]).
  { left. intros [H|[H|[]]]; discriminate H. }
  split; [exact H|].
  exact (no_detection_before_start steady_host sample_table
           [ToggleTracking; IntervalElapsed camera] H).
Defined.

Lemma history_length_bounds_witness :
  draws_in_range steady_host /\
  ((session_deliveries steady_host sample_table one_frame <= 1)%nat /\
   charts_and_insights (render (session steady_host sample_table one_frame)) = None) /\
  ((6 <= session_deliveries steady_host sample_table six_frames)%nat /\
   charts_and_insights (render (session steady_host sample_table six_frames)) =
   Some (emotionHistory (session steady_host sample_table six_frames))).
Proof.
  assert (H1 : (session_deliveries steady_host sample_table one_frame <= 1)%nat)
    by (vm_compute; lia).
  assert (H6 : (6 <= session_deliveries steady_host sample_table six_frames)%nat)
    by (vm_compute; lia).
  split; [exact steady_draws_in_range|]. split.
  - split; [exact H1|].
    exact (proj1 (proj2 (history_length_bounds steady_host sample_table one_frame
                           steady_draws_in_range)) H1).
  - split; [exact H6|].
    exact (proj2 (proj2 (history_length_bounds steady_host sample_table six_frames
                           steady_draws_in_range)) H6).
Defined.

Lemma welcome_iff_no_student_witness :
  draws_in_range steady_host /\
  (getting_started (render (session steady_host sample_table two_frames)) = true <->
   student_cards (render (session steady_host sample_table two_frames)) = []) /\
  (List.length (student_cards (render (session steady_host sample_table two_frames)))
   <= 3)%nat.
Proof.
  split; [exact steady_draws_in_range|].
  exact (welcome_iff_no_student steady_host sample_table two_frames
           steady_draws_in_range).
Defined.

Lemma page_blocks_never_vanish_witness :
  (metrics_section (render (session steady_host sample_table one_frame)) <> None /\
   metrics_section
     (render (session steady_host sample_table (one_frame ++ [ToggleTracking]))) <> None) /\
  (charts_and_insights (render (session steady_host sample_table six_frames)) <> None /\
   charts_and_insights
     (render (session steady_host sample_table (six_frames ++ [ToggleTracking]))) <> None) /\
  (getting_started (render (session steady_host sample_table one_frame)) = false /\
   getting_started
     (render (session steady_host sample_table (one_frame ++ [ToggleTracking]))) = false).
Proof.
  assert (Hm : metrics_section (render (session steady_host sample_table one_frame))
               <> None) by discriminate.
  assert (Hc : charts_and_insights (render (session steady_host sample_table six_frames))
               <> None) by (vm_compute; discriminate).
  assert (Hg : getting_started (render (session steady_host sample_table one_frame))
               = false) by reflexivity.
  destruct (page_blocks_never_vanish steady_host sample_table one_frame
              [ToggleTracking]) as (Pm & _ & Pg).
  destruct (page_blocks_never_vanish steady_host sample_table six_frames
              [ToggleTracking]) as (_ & Pc & _).
  exact (conj (conj Hm (Pm Hm)) (conj (conj Hc (Pc Hc)) (conj Hg (Pg Hg)))).
Defined.

Lemma sample_not_before_lastSeen_witness :
  clock_monotone steady_host /\
  fires (IntervalElapsed camera) (session steady_host sample_table one_frame) = true /\
  exists appended,
    emotionHistory (session steady_host sample_table (one_frame ++ [IntervalElapsed camera])) =
      emotionHistory (session steady_host sample_table one_frame) ++ appended /\
    Forall2 (fun s smp => (StudentData.lastSeen s <= EmotionData.timestamp smp)%Z)
            (students (session steady_host sample_table (one_frame ++ [IntervalElapsed camera])))
            appended.
Proof.
  split; [exact steady_clock_monotone|]. split; [reflexivity|].
  exact (sample_not_before_lastSeen steady_host sample_table one_frame
           (IntervalElapsed camera) steady_clock_monotone eq_refl).
Defined.

Lemma store_names_follow_ids_witness :
  nth_error (students (session steady_host sample_table one_frame)) 0 =
    Some (steady_student 1700000000000) /\
  StudentData.name (steady_student 1700000000000) =
    ("Student " ++ decimal (0 + 1))%string /\
  StudentData.id (steady_student 1700000000000) =
    ("student-" ++ decimal (0 + 1))%string.
Proof.
  split; [reflexivity|].
  exact (proj1 (store_names_follow_ids steady_host sample_table one_frame)
           0%nat (steady_student 1700000000000) eq_refl).
Defined.
